(** * Garmin-Data: sleep downloader and sleep plot

    A shallow embedding of [utils/garminclient.py], [sleep/downloader.py]
    and [sleep/sleepplot.py], with the properties of the relative-time
    normaliser, the bulk fetch loop, the flattener and the chart ticks.

    Conventions of the embedding:
    - Python exceptions are the [Raise] constructor of [result];
    - a Python [float] holding seconds is an exact rational ([Q]); the
      value the program calls null ([None], [NaN], [NaT]) is [None] of an
      [option];
    - [datetime.date] is its proleptic Gregorian ordinal
      ([date.toordinal()]), [datetime.datetime] a date with the four time
      fields, [datetime.timedelta] the normalised triple of days, seconds
      and microseconds, as CPython stores them. *)

From Stdlib Require Import ZArith QArith Qround List String Ascii Bool Lia.
From Stdlib Require Import Sorting.Sorted Sorting.Permutation.
Import ListNotations.
Open Scope Z_scope.

(** ** Exceptions *)

Inductive exn : Type :=
| OverflowError
| KeyError (k : string)
| IndexError
| ValueError
| TypeError
| AttributeError
| ServiceError.

Inductive result (A : Type) : Type :=
| Ok (a : A)
| Raise (e : exn).
Arguments Ok {A} a.
Arguments Raise {A} e.

Definition bind {A B : Type} (r : result A) (k : A -> result B) : result B :=
  match r with
  | Ok a => k a
  | Raise e => Raise e
  end.

Notation "x <- c1 ;; c2" := (bind c1 (fun x => c2))
  (at level 61, c1 at next level, right associativity).

Fixpoint mapM {A B : Type} (f : A -> result B) (l : list A) : result (list B) :=
  match l with
  | [] => Ok []
  | a :: l' => b <- f a ;; bs <- mapM f l' ;; Ok (b :: bs)
  end.

(** ** Builtins *)

(** [len(range(start, stop, step))] *)
Definition range_len (start stop step : Z) : Z :=
  if 0 <? step then
    (if start <? stop then (stop - start - 1) / step + 1 else 0)
  else if step <? 0 then
    (if stop <? start then (start - stop - 1) / (- step) + 1 else 0)
  else 0.

(** [list(range(start, stop, step))] *)
Definition py_range (start stop step : Z) : list Z :=
  map (fun k => start + Z.of_nat k * step)
      (seq 0 (Z.to_nat (range_len start stop step))).

(** A [dict] with string keys, in insertion order. *)
Definition dict (A : Type) : Type := list (string * A).

Fixpoint dict_get {A : Type} (k : string) (d : dict A) : option A :=
  match d with
  | [] => None
  | (k', v) :: d' => if String.eqb k k' then Some v else dict_get k d'
  end.

(** [d[k] = v]: an existing key keeps its place. *)
Fixpoint dict_set {A : Type} (k : string) (v : A) (d : dict A) : dict A :=
  match d with
  | [] => [(k, v)]
  | (k', v') :: d' =>
      if String.eqb k k' then (k, v) :: d' else (k', v') :: dict_set k v d'
  end.

Definition dict_keys {A : Type} (d : dict A) : list string := map fst d.

(** ** The [datetime] module *)

Module Datetime.

(** [date.toordinal()]: 0001-01-01 is day 1, 9999-12-31 is day 3652059. *)
Record date : Type := mkdate { toordinal : Z }.

Definition MAXORDINAL : Z := 3652059.

Definition valid_date (d : date) : Prop := 1 <= toordinal d <= MAXORDINAL.

Definition is_leap (y : Z) : bool :=
  (y mod 4 =? 0) && (negb (y mod 100 =? 0) || (y mod 400 =? 0)).

Definition days_before_year (y : Z) : Z :=
  let y' := y - 1 in y' * 365 + y' / 4 - y' / 100 + y' / 400.

Definition days_in_month (y m : Z) : Z :=
  if m =? 2 then (if is_leap y then 29 else 28)
  else if (m =? 4) || (m =? 6) || (m =? 9) || (m =? 11) then 30 else 31.

Fixpoint days_before_month_aux (y : Z) (k : nat) : Z :=
  match k with
  | O => 0
  | S k' => days_before_month_aux y k' + days_in_month y (Z.of_nat k)
  end.

Definition days_before_month (y m : Z) : Z :=
  days_before_month_aux y (Z.to_nat (m - 1)).

(** [date(y, m, d)], through [_ymd2ord]. *)
Definition ymd (y m d : Z) : date :=
  mkdate (days_before_year y + days_before_month y m + d).

Record time : Type := mktime
  { t_hour : Z; t_minute : Z; t_second : Z; t_microsecond : Z }.

(** [datetime.min.time()] *)
Definition min_time : time := mktime 0 0 0 0.

Record datetime : Type := mkdatetime
  { dt_date : date; hour : Z; minute : Z; second : Z; microsecond : Z }.

Definition valid_datetime (dt : datetime) : Prop :=
  valid_date (dt_date dt) /\
  0 <= hour dt < 24 /\ 0 <= minute dt < 60 /\
  0 <= second dt < 60 /\ 0 <= microsecond dt < 1000000.

(** [datetime.combine(date, time)] *)
Definition combine (d : date) (t : time) : datetime :=
  mkdatetime d (t_hour t) (t_minute t) (t_second t) (t_microsecond t).

(** [datetime(y, m, d, hh, mm, ss)] *)
Definition at_ymd_hms (y m d hh mm ss : Z) : datetime :=
  mkdatetime (ymd y m d) hh mm ss 0.

(** Comparison of datetimes: lexicographic on the fields. *)
Definition fields (dt : datetime) : list Z :=
  [toordinal (dt_date dt); hour dt; minute dt; second dt; microsecond dt].

Fixpoint lex_ltb (a b : list Z) : bool :=
  match a, b with
  | x :: a', y :: b' => (x <? y) || ((x =? y) && lex_ltb a' b')
  | _, _ => false
  end.

Definition dt_ltb (a b : datetime) : bool := lex_ltb (fields a) (fields b).

Record timedelta : Type := mktimedelta
  { days : Z; seconds : Z; microseconds : Z }.

Definition MAXDAYS : Z := 999999999.

(** The constructor [timedelta(days, seconds, microseconds)] on integers:
    carries microseconds into seconds and seconds into days (floor
    [divmod]), then checks [abs(days) <= 999999999]. *)
Definition new_timedelta (d s us : Z) : result timedelta :=
  let s1 := s + us / 1000000 in
  let us' := us mod 1000000 in
  let d1 := d + s1 / 86400 in
  let s' := s1 mod 86400 in
  if (Z.abs d1 <=? MAXDAYS) then Ok (mktimedelta d1 s' us')
  else Raise OverflowError.

(** Microseconds held by a timedelta. *)
Definition td_us (td : timedelta) : Z :=
  (days td * 86400 + seconds td) * 1000000 + microseconds td.

(** [timedelta.total_seconds()]:
    [((days * 86400 + seconds) * 10**6 + microseconds) / 10**6]. *)
Definition total_seconds (td : timedelta) : Q :=
  Qred (td_us td # 1000000).

(** Python's [round] on a float: to nearest, ties to even. *)
Definition round_half_even (q : Q) : Z :=
  let f := Qfloor q in
  match Qcompare (q - inject_Z f) (1 # 2) with
  | Lt => f
  | Gt => f + 1
  | Eq => if Z.even f then f else f + 1
  end.

(** [timedelta(seconds=s)] on a float: the value is rounded to a whole
    number of microseconds, then normalised. *)
Definition timedelta_of_seconds (s : Q) : result timedelta :=
  new_timedelta 0 0 (round_half_even (s * inject_Z 1000000)).

(** [-td] *)
Definition td_neg (td : timedelta) : result timedelta :=
  new_timedelta (- days td) (- seconds td) (- microseconds td).

(** [td1 + td2] *)
Definition td_add (a b : timedelta) : result timedelta :=
  new_timedelta (days a + days b) (seconds a + seconds b)
                (microseconds a + microseconds b).

(** [dt1 - dt2] on two datetimes. The difference of two valid datetimes
    is always within the timedelta range. *)
Definition dt_sub (a b : datetime) : result timedelta :=
  let secs1 := second a + minute a * 60 + hour a * 3600 in
  let secs2 := second b + minute b * 60 + hour b * 3600 in
  new_timedelta (toordinal (dt_date a) - toordinal (dt_date b))
                (secs1 - secs2) (microsecond a - microsecond b).

(** [dt + td] *)
Definition dt_add (a : datetime) (td : timedelta) : result datetime :=
  self <- new_timedelta (toordinal (dt_date a))
            (hour a * 3600 + minute a * 60 + second a) (microsecond a) ;;
  delta <- td_add self td ;;
  let hh := seconds delta / 3600 in
  let rem := seconds delta mod 3600 in
  let mm := rem / 60 in
  let ss := rem mod 60 in
  if (0 <? days delta) && (days delta <=? MAXORDINAL)
  then Ok (mkdatetime (mkdate (days delta)) hh mm ss (microseconds delta))
  else Raise OverflowError.

(** [dt - td] is [dt + (-td)]. *)
Definition dt_sub_td (a : datetime) (td : timedelta) : result datetime :=
  n <- td_neg td ;; dt_add a n.

(** The instant of a datetime, in microseconds since the start of the
    day before 0001-01-01. *)
Definition dt_us (dt : datetime) : Z :=
  ((toordinal (dt_date dt) * 86400
    + hour dt * 3600 + minute dt * 60 + second dt) * 1000000)
  + microsecond dt.

(** *** [strftime] *)

Definition digit (n : Z) : ascii := ascii_of_nat (48 + Z.to_nat n).

(** A number below 100 on two digits: [%02d], [%I], [%M]. *)
Definition two_digits (n : Z) : string :=
  String (digit (n / 10)) (String (digit (n mod 10)) EmptyString).

(** [%I]: hour of the 12-hour clock. *)
Definition hour12 (h : Z) : Z :=
  let h' := h mod 12 in if h' =? 0 then 12 else h'.

(** [%p] *)
Definition am_pm (h : Z) : string := if h <? 12 then "AM" else "PM".

(** [dt.strftime("%I:%M %p")] *)
Definition strftime_IMp (dt : datetime) : string :=
  two_digits (hour12 (hour dt)) ++ ":" ++ two_digits (minute dt)
    ++ " " ++ am_pm (hour dt).

End Datetime.

Import Datetime.

(** ** sleep/sleepplot.py: the relative-time normaliser *)

Module SleepPlot.

(** [make_relative(dt, date)]: minus the seconds from midnight on [date]
    to [dt]. *)
Definition make_relative (dt : datetime) (d : date) : result Q :=
  let midnight := combine d min_time in
  difference <- dt_sub dt midnight ;;
  Ok (- total_seconds difference)%Q.

(** [seconds_to_time(s, date)] *)
Definition seconds_to_time (s : Q) (d : date) : result datetime :=
  td <- timedelta_of_seconds s ;;
  dt_sub_td (combine d min_time) td.

(** [datetime_to_12hr(dt)] *)
Definition datetime_to_12hr (dt : datetime) : string := strftime_IMp dt.

(** [format_relative_seconds(seconds, date)]; [None] is a null
    [seconds], for which [pd.isnull] holds. *)
Definition format_relative_seconds (seconds : option Q) (d : date)
  : result string :=
  match seconds with
  | None => Ok ""%string
  | Some s => dt <- seconds_to_time s d ;; Ok (datetime_to_12hr dt)
  end.

(** The seconds since midnight on the clock of the datetime that lies
    [r] microseconds before a midnight; used to state what
    [format_relative_seconds] shows. *)
Definition clock_seconds (r : Z) : Z :=
  (- ((r / 1000000) mod 86400) + (- (r mod 1000000)) / 1000000)
    mod 86400.

(** A [pd.Timedelta]: [x.components.hours] and [x.components.minutes]
    of the normalised value. *)
Definition components_hours (x : timedelta) : Z := seconds x / 3600.
Definition components_minutes (x : timedelta) : Z :=
  (seconds x mod 3600) / 60.

(** [format_timedelta(x)]; [None] is a null [x]. *)
Definition format_timedelta (x : option timedelta) : string :=
  match x with
  | None => ""
  | Some td =>
      two_digits (components_hours td) ++ ":"
        ++ two_digits (components_minutes td)
  end.

(** *** The table of [clean_data]

    One row of the table read from the file; a null cell is [None]. *)
Record raw_row : Type := mkraw
  { id : option Z;
    calendarDate : string;
    sleepStartTimestampLocal : option Z;
    sleepEndTimestampLocal : option Z;
    sleepTimeSeconds : option Z }.

(** A row once the datetime columns are added. *)
Record dated_row : Type := mkdated
  { d_raw : raw_row;
    date_ : date;
    bedtime : option datetime;
    wakeup : option datetime;
    sleeptime : option timedelta }.

(** A row with the relative and formatted columns. *)
Record rel_row : Type := mkrel
  { r_dated : dated_row;
    r_bedtime : option Q;
    r_wakeup : option Q;
    f_bedtime : string;
    f_wakeup : string }.

(** A row of the normalised table. *)
Record row : Type := mkrow
  { r_rel : rel_row;
    rm_bedtime : option Q;
    rm_wakeup : option Q }.

Definition row_id (r : row) : option Z := id (d_raw (r_dated (r_rel r))).
Definition row_date (r : row) : date := date_ (r_dated (r_rel r)).

(** [df.dropna(subset=["id"])] *)
Definition dropna_id (df : list raw_row) : list raw_row :=
  filter (fun r => match id r with Some _ => true | None => false end) df.

Definition EPOCH_ORDINAL : Z := 719163.

(** [pd.to_datetime(ms, unit='ms')] on one cell: the instant [ms]
    milliseconds after 1970-01-01, null for a null cell; out of the
    range of datetimes it raises. *)
Definition datetime_of_ms (ms : option Z) : result (option datetime) :=
  match ms with
  | None => Ok None
  | Some n =>
      let day := EPOCH_ORDINAL + n / 86400000 in
      let r := n mod 86400000 in
      if (1 <=? day) && (day <=? MAXORDINAL)
      then Ok (Some (mkdatetime (mkdate day) (r / 3600000)
                       ((r mod 3600000) / 60000)
                       ((r mod 60000) / 1000)
                       ((r mod 1000) * 1000)))
      else Raise ValueError
  end.

(** [pd.to_timedelta(s, unit='s')] on one cell. *)
Definition timedelta_of_s (s : option Z) : result (option timedelta) :=
  match s with
  | None => Ok None
  | Some n => td <- new_timedelta 0 n 0 ;; Ok (Some td)
  end.

(** Insertion of a row in a table sorted by [date]. *)
Fixpoint insert_by_date (r : dated_row) (l : list dated_row)
  : list dated_row :=
  match l with
  | [] => [r]
  | x :: l' =>
      if toordinal (date_ r) <? toordinal (date_ x) then r :: l
      else x :: insert_by_date r l'
  end.

(** [df.sort_values("date")] *)
Definition sort_values_date (df : list dated_row) : list dated_row :=
  fold_right insert_by_date [] (rev df).

(** The state of pandas' sliding mean: the number of non-null
    observations in the window and their sum. *)
Record window : Type := mkwindow { nobs : nat; sum_x : Q }.

Definition add_mean (v : option Q) (w : window) : window :=
  match v with
  | Some x => mkwindow (S (nobs w)) (sum_x w + x)%Q
  | None => w
  end.

Definition remove_mean (v : option Q) (w : window) : window :=
  match v with
  | Some x => mkwindow (pred (nobs w)) (sum_x w - x)%Q
  | None => w
  end.

Definition calc_mean (minp : nat) (w : window) : option Q :=
  if (minp <=? nobs w)%nat && (0 <? nobs w)%nat
  then Some (sum_x w / inject_Z (Z.of_nat (nobs w)))%Q
  else None.

(** One pass over the column: [incoming] are the values not yet seen,
    [outgoing] the values from the start of the current window on, [i]
    the index of the head of [incoming]. *)
Fixpoint roll_mean (n : nat) (outgoing incoming : list (option Q))
  (i : nat) (w : window) : list (option Q) :=
  match incoming with
  | [] => []
  | x :: incoming' =>
      let w1 := add_mean x w in
      if (n <=? i)%nat then
        match outgoing with
        | old :: outgoing' =>
            let w2 := remove_mean old w1 in
            calc_mean n w2 :: roll_mean n outgoing' incoming' (S i) w2
        | [] => calc_mean n w1 :: roll_mean n [] incoming' (S i) w1
        end
      else calc_mean n w1 :: roll_mean n outgoing incoming' (S i) w1
  end.

(** [col.rolling(n).mean()] *)
Definition rolling_mean (n : nat) (col : list (option Q))
  : list (option Q) :=
  roll_mean n col col 0 (mkwindow 0 0).

(** Rows [a] to [b - 1] of a column. *)
Definition slice {A : Type} (a b : nat) (l : list A) : list A :=
  firstn (b - a) (skipn a l).

(** The sum of a list of numbers. *)
Definition Qsum (vs : list Q) : Q := fold_right Qplus 0%Q vs.

(** The number and the sum of the non-null values of a list. *)
Definition count_obs (l : list (option Q)) : nat :=
  List.length (filter (fun v => match v with Some _ => true | None => false end) l).

Definition sum_obs (l : list (option Q)) : Q :=
  fold_right (fun v acc => match v with Some x => (x + acc)%Q | None => acc end)
             0%Q l.

(** The running state [w] counts and sums the non-null values of
    [l]. *)
Definition stats_ok (l : list (option Q)) (w : window) : Prop :=
  nobs w = count_obs l /\ (sum_x w == sum_obs l)%Q.

(** What a rolling mean over windows of [n] rows must be on the window
    [l]: the arithmetic mean of [n] non-null values, and null for a
    shorter window or one that holds a null. *)
Definition mean_of_window (n : nat) (l : list (option Q))
  (r : option Q) : Prop :=
  match r with
  | Some m =>
      exists vs, l = map Some vs /\ List.length vs = n
                 /\ (m == Qsum vs / inject_Z (Z.of_nat n))%Q
  | None => (List.length l < n)%nat \/ In None l
  end.

(** [make_relative] applied to a cell that may be null ([NaT]). *)
Definition make_relative_cell (dt : option datetime) (d : date)
  : result (option Q) :=
  match dt with
  | None => Ok None
  | Some t => s <- make_relative t d ;; Ok (Some s)
  end.

Section CleanData.

(** [pd.to_datetime(s, format="%Y-%m-%d")] on one cell of
    [calendarDate]; it raises on a string that is not a date. *)
Variable to_datetime : string -> result date.

(** The four conversions of raw columns into datetimes. *)
Definition convert_row (r : raw_row) : result dated_row :=
  d <- to_datetime (calendarDate r) ;;
  b <- datetime_of_ms (sleepStartTimestampLocal r) ;;
  w <- datetime_of_ms (sleepEndTimestampLocal r) ;;
  s <- timedelta_of_s (sleepTimeSeconds r) ;;
  Ok (mkdated r d b w s).

(** The relative and the formatted columns of one row. *)
Definition relative_row (r : dated_row) : result rel_row :=
  rb <- make_relative_cell (bedtime r) (date_ r) ;;
  rw <- make_relative_cell (wakeup r) (date_ r) ;;
  fb <- format_relative_seconds rb (date_ r) ;;
  fw <- format_relative_seconds rw (date_ r) ;;
  Ok (mkrel r rb rw fb fw).

(** [clean_data] up to and including [sort_values]. *)
Definition clean_data_sorted (df : list raw_row)
  : result (list dated_row) :=
  converted <- mapM convert_row (dropna_id df) ;;
  Ok (sort_values_date converted).

(** The rolling-mean columns, added last. *)
Definition add_rolling (df : list rel_row) : list row :=
  let rb := rolling_mean 7 (map r_bedtime df) in
  let rw := rolling_mean 7 (map r_wakeup df) in
  map (fun '(r, (b, w)) => mkrow r b w)
      (List.combine df (List.combine rb rw)).

(** [clean_data] *)
Definition clean_data (df : list raw_row) : result (list row) :=
  sorted <- clean_data_sorted df ;;
  rel <- mapM relative_row sorted ;;
  Ok (add_rolling rel).

End CleanData.

(** A parser for the zero-padded form [YYYY-MM-DD] that the
    downloader writes; it is one possible [to_datetime]. *)
Definition digit_of (c : ascii) : option Z :=
  let n := Z.of_nat (nat_of_ascii c) in
  if (48 <=? n) && (n <=? 57) then Some (n - 48) else None.

Fixpoint number_of (cs : list ascii) (acc : Z) : option Z :=
  match cs with
  | [] => Some acc
  | c :: cs' =>
      match digit_of c with
      | Some n => number_of cs' (acc * 10 + n)
      | None => None
      end
  end.

Definition strptime_Ymd (s : string) : result date :=
  match list_ascii_of_string s with
  | [y1; y2; y3; y4; s1; m1; m2; s2; d1; d2] =>
      match number_of [y1; y2; y3; y4] 0, number_of [m1; m2] 0,
            number_of [d1; d2] 0 with
      | Some y, Some m, Some d =>
          if Ascii.eqb s1 "-" && Ascii.eqb s2 "-" && (1 <=? y)
             && (1 <=? m) && (m <=? 12) && (1 <=? d)
             && (d <=? days_in_month y m)
          then Ok (ymd y m d) else Raise ValueError
      | _, _, _ => Raise ValueError
      end
  | _ => Raise ValueError
  end.

(** Rows in the order of their dates. *)
Definition date_le (a b : dated_row) : Prop :=
  toordinal (date_ a) <= toordinal (date_ b).

(** A night that starts at 23:00 the evening before day [k] of January
    2024 and ends at 07:00, with [k] minutes more for each day. *)
Definition night (i : option Z) (day : string) (k : Z) : raw_row :=
  let midnight := 1704067200000 + (k - 1) * 86400000 in
  mkraw i day (Some (midnight - 3600000 + k * 60000))
        (Some (midnight + 25200000 + k * 60000)) (Some (28800 + k * 60)).

(** Eight consecutive days, the third one without data; the file has
    the second day before the first. *)
Definition eight_days : list raw_row :=
  [night (Some 102) "2024-01-02" 2; night (Some 101) "2024-01-01" 1;
   mkraw None "2024-01-03" None None None;
   night (Some 104) "2024-01-04" 4; night (Some 105) "2024-01-05" 5;
   night (Some 106) "2024-01-06" 6; night (Some 107) "2024-01-07" 7;
   night (Some 108) "2024-01-08" 8]%string.

(** The 12-hour clock of a datetime cell, empty for a null one. *)
Definition clock_of (o : option datetime) : string :=
  match o with
  | Some b => datetime_to_12hr b
  | None => ""
  end.

(** [r] is the number of seconds from the datetime cell [o] to midnight
    of [d], null for a null cell. *)
Definition seconds_before_midnight (o : option datetime) (d : date)
  (r : option Q) : Prop :=
  match o, r with
  | Some b, Some s => (s == (toordinal d * 86400000000 - dt_us b) # 1000000)%Q
  | None, None => True
  | _, _ => False
  end.

(** [y] is the number of seconds from the datetime cell [b] to the
    datetime cell [w], null when one of them is null. *)
Definition seconds_between (b w : option datetime) (y : option Q) : Prop :=
  match b, w, y with
  | Some b, Some w, Some h => (h == (dt_us w - dt_us b) # 1000000)%Q
  | Some _, Some _, None => False
  | _, _, None => True
  | _, _, Some _ => False
  end.

(** The date that was parsed and the datetimes that were converted are
    within the calendar. *)
Definition valid_dated_row (r : dated_row) : Prop :=
  valid_date (date_ r)
  /\ (forall b, bedtime r = Some b -> valid_datetime b)
  /\ (forall w, wakeup r = Some w -> valid_datetime w).

(** *** The traces of the chart

    Of each trace the data are modelled: its name, its [x], its [y] (and
    [base]) and its [customdata]. *)

Record bar_trace : Type := mkbar
  { bar_name : string;
    bar_x : list date;
    bar_base : list (option Q);
    bar_y : list (option Q);
    bar_customdata : list (string * string * string) }.

Record scatter_trace (Y : Type) : Type := mkscatter
  { sc_name : string;
    sc_x : list date;
    sc_y : list Y;
    sc_customdata : list string;
    sc_row : Z }.
Arguments mkscatter {Y}.
Arguments sc_name {Y}.
Arguments sc_x {Y}.
Arguments sc_y {Y}.
Arguments sc_customdata {Y}.
Arguments sc_row {Y}.

Record traces : Type := mktraces
  { sleeping_hours : bar_trace;
    wakeup_average : scatter_trace (option Q);
    bedtime_average : scatter_trace (option Q);
    sleep_time : scatter_trace (option timedelta) }.

(** The difference of two columns of one table; a null on either side
    gives a null. *)
Definition series_sub (a b : list (option Q)) : list (option Q) :=
  map (fun p => match fst p, snd p with
                | Some x, Some y => Some (x - y)%Q
                | _, _ => None
                end)
      (List.combine a b).

(** The bar trace of [create_traces]. *)
Definition sleeping_hours_bar (df : list row) : bar_trace :=
  mkbar "Sleeping Hours" (map row_date df)
        (map (fun r => r_wakeup (r_rel r)) df)
        (series_sub (map (fun r => r_bedtime (r_rel r)) df)
                    (map (fun r => r_wakeup (r_rel r)) df))
        (map (fun r => (f_bedtime (r_rel r), f_wakeup (r_rel r),
                        format_timedelta (sleeptime (r_dated (r_rel r)))))
             df).

(** [create_traces] *)
Definition create_traces (df : list row) : result traces :=
  let bar := sleeping_hours_bar df in
  wk <- mapM (fun r => format_relative_seconds (rm_wakeup r) (row_date r))
             df ;;
  bd <- mapM (fun r => format_relative_seconds (rm_bedtime r) (row_date r))
             df ;;
  Ok (mktraces bar
        (mkscatter "Wakeup 7 Day Rolling Average" (map row_date df)
                   (map rm_wakeup df) wk 1)
        (mkscatter "Bedtime 7 Day Rolling Average" (map row_date df)
                   (map rm_bedtime df) bd 1)
        (mkscatter "Sleep Time" (map row_date df)
                   (map (fun r => sleeptime (r_dated (r_rel r))) df)
                   (map (fun r => format_timedelta
                                    (sleeptime (r_dated (r_rel r)))) df)
                   2)).

(** *** The layout of the chart *)

Record axis (A : Type) : Type := mkaxis
  { tickmode : string; tickvals : list A; ticktext : list string }.
Arguments mkaxis {A}.
Arguments tickmode {A}.
Arguments tickvals {A}.
Arguments ticktext {A}.

Record layout : Type := mklayout
  { title : string;
    hovermode : string;
    yaxis : axis Z;
    yaxis2 : axis timedelta;
    template : string }.

(** [pd.Timedelta(hours=n)] *)
Definition timedelta_hours (n : Z) : result timedelta :=
  new_timedelta 0 (n * 3600) 0.

(** The label of one tick of the first axis. *)
Definition tick_label (today : datetime) (t : Z) : result string :=
  s <- format_relative_seconds (Some (inject_Z t)) (dt_date today) ;;
  Ok (s ++ "  ")%string.

(** [update_layout], with [today] the value of
    [datetime.datetime.today()]; the result is the argument of
    [self.fig.update_layout]. *)
Definition update_layout (today : datetime) : result layout :=
  let time_range := py_range 86400 (-86400) (-3600) in
  delta_range <- mapM timedelta_hours (py_range 0 16 1) ;;
  text <- mapM (tick_label today) time_range ;;
  Ok (mklayout "Davis' Sleep Schedule" "x unified"
        (mkaxis "array" time_range text)
        (mkaxis "array" delta_range
           (map (fun n => format_timedelta (Some n)) delta_range))
        "plotly_dark").

End SleepPlot.

(** ** utils/garminclient.py *)

Module GarminClient.

(** [timedelta(days=1)] *)
Definition one_day : timedelta := mktimedelta 1 0 0.

(** [daterange]: the number of dates the generator yields, computed
    when it is first advanced:
    [int((end_date + timedelta(days=1) - start_date).days)]. *)
Definition daterange_len (start_date end_date : datetime) : result Z :=
  end' <- dt_add end_date one_day ;;
  diff <- dt_sub end' start_date ;;
  Ok (days diff).

(** The date yielded for [n]: [start_date + timedelta(n)]. *)
Definition daterange_item (start_date : datetime) (n : Z)
  : result datetime :=
  td <- new_timedelta n 0 0 ;; dt_add start_date td.

(** [list(daterange(start_date, end_date))] *)
Definition daterange (start_date end_date : datetime)
  : result (list datetime) :=
  len <- daterange_len start_date end_date ;;
  mapM (daterange_item start_date) (py_range 0 len 1).

Section Client.

(** What the wellness service holds. *)
Variable payload : Type.

(** The answer of the service to the request for one calendar day
    (the [%Y-%m-%d] of the date in the URL) and a buffer. *)
Variable wellness : date -> Z -> result payload.

(** The requests sent over the session, oldest first. *)
Definition session : Type := list date.

(** [get_sleep_data(date, sleep_buffer_minutes)] on a datetime. *)
Definition get_sleep_data (d : datetime) (buffer : Z) (s : session)
  : result payload * session :=
  (wellness (dt_date d) buffer, s ++ [dt_date d]).

(** The loop of [get_bulk_sleep_data] over the remaining [n]s of
    the generator. *)
Fixpoint bulk_loop (start : datetime) (buffer : Z) (ns : list Z)
  (data : list payload) (s : session)
  : result (list payload) * session :=
  match ns with
  | [] => (Ok data, s)
  | n :: ns' =>
      match daterange_item start n with
      | Raise e => (Raise e, s)
      | Ok d =>
          match get_sleep_data d buffer s with
          | (Ok p, s') => bulk_loop start buffer ns' (data ++ [p]) s'
          | (Raise e, s') => (Raise e, s')
          end
      end
  end.

(** [get_bulk_sleep_data(start, end, sleep_buffer_minutes)] on two
    datetimes. *)
Definition get_bulk_sleep_data (start end_ : datetime) (buffer : Z)
  (s : session) : result (list payload) * session :=
  match daterange_len start end_ with
  | Raise e => (Raise e, s)
  | Ok len => bulk_loop start buffer (py_range 0 len 1) [] s
  end.

(** [SleepDownloader.last_n_days(n)], with [today] the value of
    [datetime.today()]. *)
Definition last_n_days (n : Z) (today : datetime) (s : session)
  : result (list payload) * session :=
  match (td <- new_timedelta n 0 0 ;; dt_sub_td today td) with
  | Raise e => (Raise e, s)
  | Ok start => get_bulk_sleep_data start today 60 s
  end.

End Client.

(** The calendar days from [a] to [b], both included. *)
Definition calendar_days (a b : date) : list date :=
  map mkdate (py_range (toordinal a) (toordinal b + 1) 1).

(** The time of day of a datetime, in microseconds. *)
Definition time_of_day (dt : datetime) : Z :=
  (hour dt * 3600 + minute dt * 60 + second dt) * 1000000
  + microsecond dt.

(** The number of whole days from [start] to one day after [end]: the
    [.days] of [end + timedelta(days=1) - start]. *)
Definition whole_days (start end_ : datetime) : Z :=
  toordinal (dt_date end_) + 1 - toordinal (dt_date start)
  - (if time_of_day end_ <? time_of_day start then 1 else 0).

(** [dt] moved by [k] days, at the same time of day. *)
Definition shift_days (dt : datetime) (k : Z) : datetime :=
  mkdatetime (mkdate (toordinal (dt_date dt) + k))
             (hour dt) (minute dt) (second dt) (microsecond dt).

(** The calendar days that [get_bulk_sleep_data] asks for. *)
Definition days_fetched (start end_ : datetime) : list date :=
  map (fun k => mkdate (toordinal (dt_date start) + Z.of_nat k))
      (seq 0 (Z.to_nat (whole_days start end_))).

End GarminClient.

(** ** sleep/downloader.py *)

Module SleepDownloader.

(** A value of a decoded JSON document. *)
#[warnings="-register-all"]
Inductive pyval : Type :=
| PNone
| PNaN
| PInt (n : Z)
| PFloat (q : Q)
| PStr (s : string)
| PBool (b : bool)
| PList (l : list pyval)
| PDict (d : list (string * pyval)).

(** [v[k]] *)
Definition getitem (v : pyval) (k : string) : result pyval :=
  match v with
  | PDict d =>
      match dict_get k d with
      | Some x => Ok x
      | None => Raise (KeyError k)
      end
  | _ => Raise TypeError
  end.

(** [v.keys()] *)
Definition keys (v : pyval) : result (list string) :=
  match v with
  | PDict d => Ok (dict_keys d)
  | _ => Raise AttributeError
  end.

(** [v.get(k)] *)
Definition get (v : pyval) (k : string) : result pyval :=
  match v with
  | PDict d =>
      Ok (match dict_get k d with Some x => x | None => PNone end)
  | _ => Raise AttributeError
  end.

(** [pd.isnull] on a cell *)
Definition isnull (v : pyval) : bool :=
  match v with
  | PNone | PNaN => true
  | _ => false
  end.

(** A [DataFrame]: the labels of the rows and the columns in order. *)
Record DataFrame : Type := mkdf
  { index : list nat; columns : dict (list pyval) }.

(** [pd.DataFrame.from_dict(d)] for columns of one length. *)
Definition from_dict (d : dict (list pyval)) : DataFrame :=
  mkdf (seq 0 (match d with [] => 0%nat | (_, c) :: _ => List.length c end)) d.

(** The entries of [l] at the places where [mask] holds. *)
Definition select {A : Type} (mask : list bool) (l : list A) : list A :=
  map snd (filter fst (List.combine mask l)).

(** [df.dropna(subset=[name])] *)
Definition dropna (df : DataFrame) (name : string) : result DataFrame :=
  match dict_get name (columns df) with
  | None => Raise (KeyError name)
  | Some col =>
      let keep := map (fun v => negb (isnull v)) col in
      Ok (mkdf (select keep (index df))
               (map (fun kc => (fst kc, select keep (snd kc)))
                    (columns df)))
  end.

(** [[d["dailySleepDTO"].get(key) for d in data]] *)
Definition dto_column (data : list pyval) (key : string)
  : result (list pyval) :=
  mapM (fun d => dto <- getitem d "dailySleepDTO" ;; get dto key) data.

(** The loop over the keys that fills [dto_data]. *)
Fixpoint fill_columns (data : list pyval) (ks : list string)
  (dto_data : dict (list pyval)) : result (dict (list pyval)) :=
  match ks with
  | [] => Ok dto_data
  | key :: ks' =>
      col <- dto_column data key ;;
      fill_columns data ks' (dict_set key col dto_data)
  end.

(** [dto_to_df(data)] *)
Definition dto_to_df (data : list pyval) : result DataFrame :=
  first <- match data with
           | [] => Raise IndexError
           | d :: _ => Ok d
           end ;;
  dto0 <- getitem first "dailySleepDTO" ;;
  ks <- keys dto0 ;;
  dto_data <- fill_columns data ks [] ;;
  dropna (from_dict dto_data) "id".

(** [dto.get(key)] on the mapping itself. *)
Definition dto_get (dto : dict pyval) (key : string) : pyval :=
  match dict_get key dto with
  | Some x => x
  | None => PNone
  end.

(** A raw payload: a mapping whose ["dailySleepDTO"] is the mapping
    [dto]. *)
Definition is_payload (d : pyval) (dto : dict pyval) : Prop :=
  exists env, d = PDict env /\ dict_get "dailySleepDTO" env = Some (PDict dto).

(** Whether a row is kept by [dropna(subset=["id"])]. *)
Definition has_id (dto : dict pyval) : bool :=
  negb (isnull (dto_get dto "id")).

End SleepDownloader.

(** * Properties *)

(** ** Arithmetic of timedeltas *)

Section TimedeltaFacts.

(** What the constructor computes, field by field. *)
Lemma new_timedelta_fields d s us td :
  new_timedelta d s us = Ok td ->
  days td = d + (s + us / 1000000) / 86400 /\
  seconds td = (s + us / 1000000) mod 86400 /\
  microseconds td = us mod 1000000.
Proof.
  unfold new_timedelta.
  destruct (Z.abs _ <=? MAXDAYS); intros H; inversion H; subst; cbn; auto.
Qed.

(** A triple that is already normalised is kept as it is. *)
Lemma new_timedelta_normal d s us :
  Z.abs d <= MAXDAYS -> 0 <= s < 86400 -> 0 <= us < 1000000 ->
  new_timedelta d s us = Ok (mktimedelta d s us).
Proof.
  intros Hd Hs Hus. unfold new_timedelta.
  rewrite (Z.div_small us), (Z.mod_small us), Z.add_0_r by lia.
  rewrite (Z.div_small s), (Z.mod_small s), Z.add_0_r by lia.
  apply Z.leb_le in Hd. now rewrite Hd.
Qed.

(** The constructor keeps the number of microseconds. *)
Lemma new_timedelta_us d s us td :
  new_timedelta d s us = Ok td ->
  td_us td = (d * 86400 + s) * 1000000 + us.
Proof.
  intros H. apply new_timedelta_fields in H as (Hd & Hs & Hu).
  unfold td_us. rewrite Hd, Hs, Hu.
  pose proof (Z.div_mod us 1000000 ltac:(lia)).
  pose proof (Z.div_mod (s + us / 1000000) 86400 ltac:(lia)).
  lia.
Qed.

End TimedeltaFacts.

(** ** Rounding *)

Section Rounding.

Open Scope Q_scope.



(** Rounding does not see which fraction stands for the number. *)
Lemma round_half_even_comp (p q : Q) :
  p == q -> round_half_even p = round_half_even q.
Proof.
  intros E. unfold round_half_even.
  rewrite (Qfloor_comp _ _ E).
  assert (p - inject_Z (Qfloor q) == q - inject_Z (Qfloor q)) as E'
    by (rewrite E; reflexivity).
  now rewrite (Qcompare_comp _ _ E' (1 # 2) (1 # 2) (Qeq_refl _)).
Qed.

(** A whole number is its own rounding. *)
Lemma round_half_even_Z (n : Z) : round_half_even (inject_Z n) = n.
Proof.
  unfold round_half_even. rewrite Qfloor_Z.
  assert (inject_Z n - inject_Z n == 0) as E by ring.
  rewrite (Qcompare_comp _ _ E (1 # 2) (1 # 2) (Qeq_refl _)).
  reflexivity.
Qed.


(** The seconds of a timedelta, taken back to microseconds. *)
Lemma total_seconds_us (td : timedelta) :
  round_half_even (- total_seconds td * inject_Z 1000000)
  = (- td_us td)%Z.
Proof.
  rewrite <- round_half_even_Z. apply round_half_even_comp.
  unfold total_seconds. rewrite Qred_correct.
  unfold Qeq, Qmult, Qopp, inject_Z; cbn. lia.
Qed.

End Rounding.

(** ** Datetime arithmetic *)

Section DatetimeFacts.

(** The constructor, given the normal form of its argument. *)
Lemma new_timedelta_eq d s us d' s' us' :
  Z.abs d' <= MAXDAYS -> 0 <= s' < 86400 -> 0 <= us' < 1000000 ->
  (d * 86400 + s) * 1000000 + us = (d' * 86400 + s') * 1000000 + us' ->
  new_timedelta d s us = Ok (mktimedelta d' s' us').
Proof.
  intros Hd Hs Hus E. unfold new_timedelta.
  assert (us mod 1000000 = us' /\ (s + us / 1000000) mod 86400 = s'
          /\ d + (s + us / 1000000) / 86400 = d') as (-> & -> & ->)
    by (Z.div_mod_to_equations; lia).
  apply Z.leb_le in Hd. now rewrite Hd.
Qed.

(** The constructor in terms of the number of microseconds. *)
Lemma new_timedelta_spec d s us :
  let n := (d * 86400 + s) * 1000000 + us in
  Z.abs (n / 86400000000) <= MAXDAYS ->
  new_timedelta d s us
  = Ok (mktimedelta (n / 86400000000) ((n / 1000000) mod 86400)
          (n mod 1000000)).
Proof.
  intros n Hn. apply new_timedelta_eq; auto.
  - apply Z.mod_pos_bound; lia.
  - apply Z.mod_pos_bound; lia.
  - subst n. Z.div_mod_to_equations. lia.
Qed.

(** The seconds since midnight of a valid datetime. *)
Lemma day_seconds_bound dt :
  valid_datetime dt ->
  0 <= second dt + minute dt * 60 + hour dt * 3600 < 86400.
Proof. unfold valid_datetime. lia. Qed.

(** The difference of a datetime and a midnight. *)
Lemma dt_sub_midnight dt d :
  valid_datetime dt -> valid_date d ->
  dt_sub dt (combine d min_time)
  = Ok (mktimedelta (toordinal (dt_date dt) - toordinal d)
          (second dt + minute dt * 60 + hour dt * 3600)
          (microsecond dt)).
Proof.
  intros Hdt Hd. pose proof (day_seconds_bound dt Hdt) as Hs.
  destruct Hdt as (Ho & _ & _ & _ & Hus).
  unfold dt_sub, valid_date, MAXORDINAL in *. cbn.
  apply new_timedelta_eq; unfold MAXDAYS; lia.
Qed.

(** Adding to a midnight a normalised timedelta that stays in range. *)
Lemma dt_add_midnight d td :
  valid_date d -> Z.abs (days td) <= MAXDAYS ->
  0 <= seconds td < 86400 -> 0 <= microseconds td < 1000000 ->
  1 <= toordinal d + days td <= MAXORDINAL ->
  dt_add (combine d min_time) td
  = Ok (mkdatetime (mkdate (toordinal d + days td))
          (seconds td / 3600) ((seconds td mod 3600) / 60)
          ((seconds td mod 3600) mod 60) (microseconds td)).
Proof.
  intros Hd Hdays Hs Hus Hr. unfold dt_add, valid_date, MAXORDINAL in *.
  cbn.
  rewrite (new_timedelta_normal (toordinal d) 0 0)
    by (unfold MAXDAYS; lia).
  cbn. unfold td_add. cbn.
  rewrite (new_timedelta_normal (toordinal d + days td) (seconds td)
             (microseconds td)) by (unfold MAXDAYS; lia).
  cbn.
  unfold MAXORDINAL.
  destruct (Z.ltb_spec 0 (toordinal d + days td)); [ | lia].
  destruct (Z.leb_spec (toordinal d + days td) 3652059); [ | lia].
  reflexivity.
Qed.

(** The lexicographic order of datetimes is the order of instants. *)
Lemma dt_ltb_midnight_l dt d :
  valid_datetime dt ->
  dt_ltb (combine d min_time) dt = true ->
  0 < ((toordinal (dt_date dt) - toordinal d) * 86400
       + (second dt + minute dt * 60 + hour dt * 3600)) * 1000000
      + microsecond dt.
Proof.
  intros (_ & Hh & Hm & Hs & Hus). unfold dt_ltb, fields.
  cbn [lex_ltb combine min_time dt_date hour minute second microsecond
       t_hour t_minute t_second t_microsecond].
  rewrite !andb_false_r, !orb_false_r. intros H.
  repeat (apply orb_prop in H as [H | H];
          [ apply Z.ltb_lt in H; lia
          | let E := fresh "E" in
            apply andb_prop in H as [E H]; apply Z.eqb_eq in E ]).
  apply Z.ltb_lt in H. lia.
Qed.

Lemma dt_ltb_midnight_r dt d :
  valid_datetime dt ->
  dt_ltb dt (combine d min_time) = true ->
  ((toordinal (dt_date dt) - toordinal d) * 86400
   + (second dt + minute dt * 60 + hour dt * 3600)) * 1000000
  + microsecond dt < 0.
Proof.
  intros (_ & Hh & Hm & Hs & Hus). unfold dt_ltb, fields.
  cbn [lex_ltb combine min_time dt_date hour minute second microsecond
       t_hour t_minute t_second t_microsecond].
  rewrite !andb_false_r, !orb_false_r. intros H.
  repeat (apply orb_prop in H as [H | H];
          [ apply Z.ltb_lt in H; lia
          | let E := fresh "E" in
            apply andb_prop in H as [E H]; apply Z.eqb_eq in E ]).
  apply Z.ltb_lt in H. lia.
Qed.

End DatetimeFacts.

(** ** The relative-time normaliser *)

Module NormaliserFacts.
Import SleepPlot.

(** [make_relative] never raises on a valid datetime. *)
Lemma make_relative_value dt d :
  valid_datetime dt -> valid_date d ->
  make_relative dt d
  = Ok (- total_seconds
            (mktimedelta (toordinal (dt_date dt) - toordinal d)
               (second dt + minute dt * 60 + hour dt * 3600)
               (microsecond dt)))%Q.
Proof.
  intros Hdt Hd. unfold make_relative.
  now rewrite dt_sub_midnight.
Qed.



(** C2. Sign convention: a datetime after midnight of [d] has negative
    relative seconds, one before midnight positive ones; and the two
    examples: 07:15 on 2024-01-02 is [-26100.0] seconds relative to
    2024-01-02, which is formatted as ["07:15 AM"]. *)
Theorem make_relative_sign :
  (forall dt d, valid_datetime dt -> valid_date d ->
     exists s, make_relative dt d = Ok s /\
       (dt_ltb (combine d min_time) dt = true -> s < 0)%Q /\
       (dt_ltb dt (combine d min_time) = true -> 0 < s)%Q) /\
  make_relative (at_ymd_hms 2024 1 2 7 15 0) (ymd 2024 1 2)
  = Ok (-26100 # 1) /\
  format_relative_seconds (Some (-26100 # 1)) (ymd 2024 1 2)
  = Ok "07:15 AM"%string.
Proof.
  split; [ | split; reflexivity].
  intros dt d Hdt Hd. eexists. split; [apply make_relative_value; auto|].
  unfold total_seconds, td_us. cbn [days seconds microseconds].
  split; intros H.
  - apply dt_ltb_midnight_l in H; auto.
    rewrite Qred_correct. unfold Qlt, Qopp. cbn. lia.
  - apply dt_ltb_midnight_r in H; auto.
    rewrite Qred_correct. unfold Qlt, Qopp. cbn. lia.
Qed.

(** Going to bed at 23:05 the evening before the night of 2024-01-02. *)
Lemma make_relative_sign_witness :
  exists s,
    make_relative (at_ymd_hms 2024 1 1 23 5 30) (ymd 2024 1 2) = Ok s
    /\ (0 < s)%Q.
Proof.
  destruct (proj1 make_relative_sign
              (at_ymd_hms 2024 1 1 23 5 30) (ymd 2024 1 2))
    as (s & Hs & _ & Hpos).
  - unfold valid_datetime, valid_date, MAXORDINAL; cbn; lia.
  - unfold valid_date, MAXORDINAL; cbn; lia.
  - exists s. split; [exact Hs | apply Hpos; reflexivity].
Defined.

(** C6. Null safety: on a null argument both formatters return the
    empty string, whatever the date, and raise nothing. *)
Theorem formatters_null_safe (d : date) :
  format_relative_seconds None d = Ok ""%string /\
  format_timedelta None = ""%string.
Proof. split; reflexivity. Qed.

(** *** The clock of a relative time *)


(** The hour and the minute of [seconds_to_time(s, d)] are those of
    the clock, whatever [d]. *)
Lemma seconds_to_time_clock s d dt :
  seconds_to_time s d = Ok dt ->
  let c := clock_seconds (round_half_even (s * inject_Z 1000000)) in
  hour dt = c / 3600 /\ minute dt = (c mod 3600) / 60.
Proof.
  unfold seconds_to_time, timedelta_of_seconds, dt_sub_td, td_neg.
  set (r := round_half_even _).
  destruct (new_timedelta 0 0 r) as [td|] eqn:Etd; [ | discriminate].
  apply new_timedelta_fields in Etd as (_ & Hs & Hu). cbn [bind].
  destruct (new_timedelta _ _ _) as [n|] eqn:En; [ | discriminate].
  apply new_timedelta_fields in En as (_ & Hns & Hnu). cbn [bind].
  unfold dt_add. cbn [combine min_time dt_date hour minute second
    microsecond t_hour t_minute t_second t_microsecond].
  destruct (new_timedelta (toordinal d) _ _) as [self|] eqn:Es;
    [ | discriminate].
  apply new_timedelta_fields in Es as (_ & Hss & Hsu). cbn [bind].
  unfold td_add.
  destruct (new_timedelta _ _ _) as [delta|] eqn:Ed; [ | discriminate].
  apply new_timedelta_fields in Ed as (_ & Hds & _). cbn [bind].
  destruct (_ && _); [ | discriminate].
  intros H; inversion H; subst dt; clear H. cbn.
  assert (seconds delta = clock_seconds r) as ->.
  { unfold clock_seconds. rewrite Hds, Hss, Hsu, Hns, Hnu, Hs, Hu.
    cbn. Z.div_mod_to_equations; lia. }
  auto.
Qed.

(** [seconds_to_time] returns when the instant it denotes is a
    datetime, that is, from year 1 to year 9999. *)
Lemma seconds_to_time_in_range s d :
  valid_date d ->
  let n := toordinal d * 86400000000
           - round_half_even (s * inject_Z 1000000) in
  1 <= n / 86400000000 <= MAXORDINAL ->
  exists dt, seconds_to_time s d = Ok dt.
Proof.
  intros Hd n Hn. unfold valid_date, MAXORDINAL in *.
  unfold seconds_to_time, timedelta_of_seconds, dt_sub_td, td_neg.
  set (r := round_half_even _) in *.
  rewrite new_timedelta_spec
    by (cbn; unfold MAXDAYS; subst n; Z.div_mod_to_equations; lia).
  cbn [bind days seconds microseconds].
  rewrite new_timedelta_spec
    by (cbn; unfold MAXDAYS; subst n; Z.div_mod_to_equations; lia).
  cbn [bind]. rewrite dt_add_midnight; cbn [days seconds microseconds].
  - eauto.
  - exact Hd.
  - unfold MAXDAYS; subst n; Z.div_mod_to_equations; lia.
  - apply Z.mod_pos_bound; lia.
  - apply Z.mod_pos_bound; lia.
  - unfold MAXORDINAL. subst n. Z.div_mod_to_equations; lia.
Qed.







End NormaliserFacts.

(** ** Sequencing of computations that may raise *)

Section MapMFacts.

Context {A B : Type}.

Lemma mapM_ok_map (f : A -> result B) (g : A -> B) (l : list A) :
  (forall a, In a l -> f a = Ok (g a)) -> mapM f l = Ok (map g l).
Proof.
  induction l as [|a l IH]; intros H; cbn; [reflexivity|].
  rewrite (H a (or_introl eq_refl)). cbn.
  rewrite IH by (intros; apply H; now right). reflexivity.
Qed.

Lemma mapM_Forall2 (f : A -> result B) (l : list A) (bs : list B) :
  mapM f l = Ok bs -> Forall2 (fun a b => f a = Ok b) l bs.
Proof.
  revert bs. induction l as [|a l IH]; intros bs; cbn.
  - intros H; inversion H; constructor.
  - destruct (f a) as [b|] eqn:E; cbn; [|discriminate].
    destruct (mapM f l) as [bs'|]; cbn; [|discriminate].
    intros H; inversion H; subst. constructor; auto.
Qed.

Lemma mapM_ex (f : A -> result B) (l : list A) :
  (forall a, In a l -> exists b, f a = Ok b) ->
  exists bs, mapM f l = Ok bs.
Proof.
  induction l as [|a l IH]; intros H; cbn; [eauto|].
  destruct (H a (or_introl eq_refl)) as (b & ->). cbn.
  destruct IH as (bs & ->); [intros; apply H; now right|].
  cbn. eauto.
Qed.

Lemma mapM_length (f : A -> result B) (l : list A) (bs : list B) :
  mapM f l = Ok bs -> List.length bs = List.length l.
Proof.
  intros H. apply mapM_Forall2 in H.
  symmetry. eapply Forall2_length; eauto.
Qed.

Lemma mapM_ext (f g : A -> result B) (l : list A) :
  (forall a, In a l -> f a = g a) -> mapM f l = mapM g l.
Proof.
  induction l as [|a l IH]; intros H; cbn; [reflexivity|].
  rewrite (H a (or_introl eq_refl)).
  rewrite IH by (intros; apply H; now right). reflexivity.
Qed.

End MapMFacts.

Lemma mapM_map {A B C : Type} (g : A -> B) (f : B -> result C) (l : list A) :
  mapM f (map g l) = mapM (fun a => f (g a)) l.
Proof.
  induction l as [|a l IH]; cbn; [reflexivity|]. now rewrite IH.
Qed.

(** ** The ticks of the chart *)

Module LayoutFacts.
Import SleepPlot NormaliserFacts.

(** [range(86400, -86400, -3600)]: 48 values, from 86400 down to
    -82800. *)
Lemma time_range_values :
  py_range 86400 (-86400) (-3600)
  = map (fun k => 86400 - 3600 * Z.of_nat k) (seq 0 48).
Proof. reflexivity. Qed.

Lemma round_half_even_seconds (t : Z) :
  round_half_even (inject_Z t * inject_Z 1000000) = t * 1000000.
Proof.
  rewrite <- (round_half_even_Z (t * 1000000)).
  apply round_half_even_comp. now rewrite inject_Z_mult.
Qed.

(** A tick within a day of midnight has a label, unless [today] is the
    very first day of the calendar. *)
Lemma tick_label_ok today t :
  valid_datetime today -> 2 <= toordinal (dt_date today) ->
  -86400 < t <= 86400 ->
  exists s,
    format_relative_seconds (Some (inject_Z t)) (dt_date today) = Ok s
    /\ tick_label today t = Ok (s ++ "  ")%string.
Proof.
  intros (Hd & _) Ho Ht. unfold tick_label, format_relative_seconds.
  destruct (seconds_to_time_in_range (inject_Z t) (dt_date today) Hd)
    as (dt & E).
  - rewrite round_half_even_seconds.
    unfold valid_date, MAXORDINAL in *. Z.div_mod_to_equations. lia.
  - rewrite E. cbn. eauto.
Qed.

(** C8, as stated, fails at the lower end: the range stops before
    -86400, so that value is no tick of the first axis. *)
Lemma update_layout_no_tick_at_minus_24h :
  exists L,
    update_layout (at_ymd_hms 2024 1 2 10 30 0) = Ok L
    /\ ~ In (-86400) (tickvals (yaxis L)).
Proof.
  eexists. split; [vm_compute; reflexivity|].
  cbn. intros H. repeat (destruct H as [H|H]; [discriminate|]). exact H.
Qed.

(** C8, amended. The first y-axis has a tick at every hour from
    +86400 down to -82800 seconds (48 ticks; -86400 is not one), each
    labelled with [format_relative_seconds] of the value on today's
    date followed by two spaces; the second y-axis has a tick at each
    whole hour from 0 to 15, labelled with [format_timedelta]. *)
Theorem update_layout_ticks today :
  valid_datetime today -> 2 <= toordinal (dt_date today) ->
  exists L,
    update_layout today = Ok L
    /\ tickvals (yaxis L)
       = map (fun k => 86400 - 3600 * Z.of_nat k) (seq 0 48)
    /\ ~ In (-86400) (tickvals (yaxis L))
    /\ Forall2
         (fun t txt =>
            exists s,
              format_relative_seconds (Some (inject_Z t)) (dt_date today)
              = Ok s
              /\ txt = (s ++ "  ")%string)
         (tickvals (yaxis L)) (ticktext (yaxis L))
    /\ tickvals (yaxis2 L)
       = map (fun n => mktimedelta 0 (3600 * Z.of_nat n) 0) (seq 0 16)
    /\ ticktext (yaxis2 L)
       = map (fun td => format_timedelta (Some td)) (tickvals (yaxis2 L))
    /\ ticktext (yaxis2 L)
       = ["00:00"; "01:00"; "02:00"; "03:00"; "04:00"; "05:00"; "06:00";
          "07:00"; "08:00"; "09:00"; "10:00"; "11:00"; "12:00"; "13:00";
          "14:00"; "15:00"]%string.
Proof.
  intros Hv Ho. unfold update_layout.
  change (mapM timedelta_hours (py_range 0 16 1))
    with (Ok (map (fun n => mktimedelta 0 (3600 * Z.of_nat n) 0)
                (seq 0 16))).
  cbn [bind]. rewrite time_range_values.
  assert (forall t,
            In t (map (fun k => 86400 - 3600 * Z.of_nat k) (seq 0 48)) ->
            -86400 < t <= 86400) as Hin.
  { intros t H. apply in_map_iff in H as (k & <- & Hk).
    apply in_seq in Hk. lia. }
  destruct (mapM_ex (tick_label today)
              (map (fun k => 86400 - 3600 * Z.of_nat k) (seq 0 48)))
    as (text & E).
  { intros t Ht. destruct (tick_label_ok today t Hv Ho (Hin t Ht))
      as (s & _ & ->). eauto. }
  rewrite E. cbn [bind]. eexists. split; [reflexivity|].
  cbn [yaxis yaxis2 tickvals ticktext].
  split; [reflexivity|]. split.
  { intros H. apply Hin in H. lia. }
  split.
  { apply mapM_Forall2 in E.
    eapply Forall2_impl; [|exact E]. intros t txt Ht. cbv beta in *.
    unfold tick_label in Ht.
    destruct (format_relative_seconds (Some (inject_Z t)) (dt_date today))
      as [s|]; [|discriminate].
    cbn [bind] in Ht. exists s. split; [reflexivity | now inversion Ht]. }
  repeat split; reflexivity.
Qed.

(** The ticks of a chart drawn on 2024-01-02. *)
Lemma update_layout_ticks_witness :
  exists L,
    update_layout (at_ymd_hms 2024 1 2 10 30 0) = Ok L
    /\ tickvals (yaxis L)
       = map (fun k => 86400 - 3600 * Z.of_nat k) (seq 0 48).
Proof.
  destruct (update_layout_ticks (at_ymd_hms 2024 1 2 10 30 0))
    as (L & HL & Hv & _).
  - unfold valid_datetime, valid_date, MAXORDINAL; cbn; lia.
  - cbn; lia.
  - exists L. split; assumption.
Defined.

End LayoutFacts.

(** ** The bulk fetch *)

Module ClientFacts.
Import GarminClient.

Lemma py_range_from_zero (len : Z) :
  py_range 0 len 1 = map Z.of_nat (seq 0 (Z.to_nat len)).
Proof.
  unfold py_range, range_len. cbn [Z.ltb Z.compare].
  destruct (Z.ltb_spec 0 len).
  - rewrite Z.sub_0_r, Z.div_1_r.
    replace (len - 1 + 1) with len by lia.
    apply map_ext. intros k. lia.
  - replace (Z.to_nat len) with 0%nat by lia. reflexivity.
Qed.

Lemma calendar_days_from (a b : date) :
  calendar_days a b
  = map (fun k => mkdate (toordinal a + Z.of_nat k))
        (seq 0 (Z.to_nat (toordinal b + 1 - toordinal a))).
Proof.
  unfold calendar_days, py_range, range_len. cbn [Z.ltb Z.compare].
  rewrite map_map.
  destruct (Z.ltb_spec (toordinal a) (toordinal b + 1)).
  - rewrite Z.div_1_r.
    replace (toordinal b + 1 - toordinal a - 1 + 1)
      with (toordinal b + 1 - toordinal a) by lia.
    apply map_ext. intros k. f_equal. lia.
  - replace (Z.to_nat (toordinal b + 1 - toordinal a)) with 0%nat by lia.
    reflexivity.
Qed.

(** Adding whole days moves the date and keeps the time of day. *)
Lemma dt_add_days dt n :
  valid_datetime dt ->
  1 <= toordinal (dt_date dt) + n <= MAXORDINAL ->
  dt_add dt (mktimedelta n 0 0)
  = Ok (mkdatetime (mkdate (toordinal (dt_date dt) + n))
          (hour dt) (minute dt) (second dt) (microsecond dt)).
Proof.
  intros (Hd & Hh & Hm & Hs & Hus) Hn.
  unfold valid_date, MAXORDINAL in *. unfold dt_add.
  rewrite (new_timedelta_normal (toordinal (dt_date dt)))
    by (unfold MAXDAYS; lia).
  cbn [bind]. unfold td_add. cbn [days seconds microseconds].
  rewrite (new_timedelta_eq _ _ _ (toordinal (dt_date dt) + n)
             (hour dt * 3600 + minute dt * 60 + second dt)
             (microsecond dt)) by (unfold MAXDAYS; lia).
  cbn [bind days seconds microseconds]. unfold MAXORDINAL.
  destruct (Z.ltb_spec 0 (toordinal (dt_date dt) + n)); [|lia].
  destruct (Z.leb_spec (toordinal (dt_date dt) + n) 3652059); [|lia].
  cbn [andb]. f_equal. f_equal; Z.div_mod_to_equations; lia.
Qed.

Lemma daterange_item_value start n :
  valid_datetime start ->
  0 <= n -> toordinal (dt_date start) + n <= MAXORDINAL ->
  daterange_item start n
  = Ok (mkdatetime (mkdate (toordinal (dt_date start) + n))
          (hour start) (minute start) (second start)
          (microsecond start)).
Proof.
  intros Hv Hn Hmax. pose proof Hv as ((Ho & _) & _).
  unfold daterange_item, MAXORDINAL in *.
  rewrite new_timedelta_normal by (unfold MAXDAYS; lia).
  cbn [bind]. apply dt_add_days; auto. unfold MAXORDINAL. lia.
Qed.

(** The number of dates of the generator, when the time of day of the
    start is not after the time of day of the end. *)
Lemma daterange_len_value start end_ :
  valid_datetime start -> valid_datetime end_ ->
  toordinal (dt_date end_) < MAXORDINAL ->
  time_of_day start <= time_of_day end_ ->
  daterange_len start end_
  = Ok (toordinal (dt_date end_) + 1 - toordinal (dt_date start)).
Proof.
  intros Hs He Hmax Htod. unfold daterange_len, one_day.
  pose proof He as (Hoe & _). unfold valid_date in Hoe.
  rewrite dt_add_days by (auto; lia). cbn [bind].
  destruct Hs as (Hos & Hh & Hm & Hsec & Hus).
  destruct He as (_ & Hh' & Hm' & Hsec' & Hus').
  unfold valid_date, MAXORDINAL, time_of_day in *.
  unfold dt_sub. cbn [dt_date hour minute second microsecond toordinal].
  set (tod := (hour end_ * 3600 + minute end_ * 60 + second end_)
              * 1000000 + microsecond end_
              - ((hour start * 3600 + minute start * 60 + second start)
                 * 1000000 + microsecond start)).
  rewrite (new_timedelta_eq _ _ _
             (toordinal (dt_date end_) + 1 - toordinal (dt_date start))
             (tod / 1000000) (tod mod 1000000)).
  - reflexivity.
  - unfold MAXDAYS. lia.
  - subst tod. Z.div_mod_to_equations. lia.
  - apply Z.mod_pos_bound. lia.
  - subst tod. Z.div_mod_to_equations. lia.
Qed.

Section Client.

Variable payload : Type.
Variable wellness : date -> Z -> result payload.

(** The loop when every fetch returns. *)
Lemma bulk_loop_ok start buffer :
  valid_datetime start ->
  forall ns data s ps,
    (forall n, In n ns ->
               0 <= n /\ toordinal (dt_date start) + n <= MAXORDINAL) ->
    mapM (fun n => wellness (mkdate (toordinal (dt_date start) + n))
                     buffer) ns = Ok ps ->
    bulk_loop payload wellness start buffer ns data s
    = (Ok (data ++ ps),
       s ++ map (fun n => mkdate (toordinal (dt_date start) + n)) ns).
Proof.
  intros Hv. induction ns as [|n ns IH]; intros data s ps Hin Hm.
  - cbn in *. inversion Hm. now rewrite !app_nil_r.
  - cbn in Hm. cbn [bulk_loop].
    destruct (Hin n (or_introl eq_refl)) as (Hn0 & Hn1).
    rewrite daterange_item_value by auto.
    unfold get_sleep_data. cbn [dt_date].
    destruct (wellness _ buffer) as [p|] eqn:Ew; [|discriminate].
    cbn in Hm.
    destruct (mapM _ ns) as [ps'|] eqn:Em; [|discriminate].
    cbn in Hm. inversion Hm; subst ps.
    rewrite (IH _ _ ps') by (auto; intros; apply Hin; now right).
    cbn [map]. now rewrite <- !app_assoc.
Qed.

(** C3, amended. When the time of day of [start] is not after the
    time of day of [end] (as for two midnights, or for the two
    datetimes of [last_n_days]), [end] is before the last day of the
    calendar and every single-day fetch returns, then
    [get_bulk_sleep_data] fetches each calendar day from the day of
    [start] to the day of [end], both included, once and in ascending
    order, and returns the results in that order. *)
Theorem get_bulk_sleep_data_range start end_ buffer s ps :
  valid_datetime start -> valid_datetime end_ ->
  toordinal (dt_date end_) < MAXORDINAL ->
  time_of_day start <= time_of_day end_ ->
  mapM (fun d => wellness d buffer)
       (calendar_days (dt_date start) (dt_date end_)) = Ok ps ->
  get_bulk_sleep_data payload wellness start end_ buffer s
  = (Ok ps, s ++ calendar_days (dt_date start) (dt_date end_)).
Proof.
  intros Hs He Hmax Htod Hm. unfold get_bulk_sleep_data.
  rewrite daterange_len_value by auto.
  rewrite py_range_from_zero.
  rewrite calendar_days_from in *.
  set (len := Z.to_nat _) in *.
  rewrite (bulk_loop_ok start buffer Hs _ [] s ps).
  - cbn [app]. now rewrite map_map.
  - intros n Hn. apply in_map_iff in Hn as (k & <- & Hk).
    apply in_seq in Hk. subst len. lia.
  - rewrite mapM_map. rewrite mapM_map in Hm. exact Hm.
Qed.

End Client.

(** C3, as stated, fails when the start is later in its day than the
    end in its own: from 23:00 on 2024-01-01 to 01:00 on 2024-01-02, a
    service that answers every day is asked for 2024-01-01 only, not
    for the two calendar days of the interval. *)
Lemma get_bulk_sleep_data_skips_last_day :
  dt_ltb (at_ymd_hms 2024 1 1 23 0 0) (at_ymd_hms 2024 1 2 1 0 0) = true
  /\ snd (get_bulk_sleep_data date (fun d _ => Ok d)
            (at_ymd_hms 2024 1 1 23 0 0) (at_ymd_hms 2024 1 2 1 0 0)
            60 [])
     <> calendar_days (ymd 2024 1 1) (ymd 2024 1 2).
Proof. split; [reflexivity | vm_compute; discriminate]. Qed.

(** Three days of a service that answers every request with its day. *)
Lemma get_bulk_sleep_data_range_witness :
  get_bulk_sleep_data date (fun d _ => Ok d)
    (at_ymd_hms 2024 1 1 8 0 0) (at_ymd_hms 2024 1 3 8 0 0) 60 []
  = (Ok [ymd 2024 1 1; ymd 2024 1 2; ymd 2024 1 3],
     [] ++ calendar_days (ymd 2024 1 1) (ymd 2024 1 3)).
Proof.
  apply (get_bulk_sleep_data_range date (fun d _ => Ok d)
           (at_ymd_hms 2024 1 1 8 0 0) (at_ymd_hms 2024 1 3 8 0 0)).
  - unfold valid_datetime, valid_date, MAXORDINAL; cbn; lia.
  - unfold valid_datetime, valid_date, MAXORDINAL; cbn; lia.
  - unfold MAXORDINAL; cbn; lia.
  - cbn; lia.
  - reflexivity.
Defined.

End ClientFacts.

(** ** The flattener *)

Module FlattenerFacts.
Import SleepDownloader.

(** *** Dictionaries *)

Lemma dict_set_fresh {A : Type} (k : string) (v : A) (d : dict A) :
  ~ In k (dict_keys d) -> dict_set k v d = d ++ [(k, v)].
Proof.
  induction d as [|[k' v'] d IH]; cbn; intros H; [reflexivity|].
  destruct (String.eqb_spec k k') as [->|Hne].
  - exfalso. apply H. now left.
  - rewrite IH; [reflexivity|]. intros Hin. apply H. now right.
Qed.

Lemma dict_keys_app {A : Type} (d1 d2 : dict A) :
  dict_keys (d1 ++ d2) = dict_keys d1 ++ dict_keys d2.
Proof. unfold dict_keys. apply map_app. Qed.

(** Setting fresh keys one after the other lists them in order. *)
Lemma fold_dict_set_fresh {A : Type} (col : string -> A) (ks : list string) :
  NoDup ks ->
  forall acc,
    (forall k, In k ks -> ~ In k (dict_keys acc)) ->
    fold_left (fun acc k => dict_set k (col k) acc) ks acc
    = acc ++ map (fun k => (k, col k)) ks.
Proof.
  induction 1 as [|k ks Hk Hnd IH]; intros acc Hacc; cbn.
  - now rewrite app_nil_r.
  - rewrite dict_set_fresh by (apply Hacc; now left).
    rewrite IH.
    + now rewrite <- app_assoc.
    + intros k' Hk'. rewrite dict_keys_app, in_app_iff. cbn.
      intros [Hin | [<- | []]].
      * eapply Hacc; [right; exact Hk' | exact Hin].
      * contradiction.
Qed.

Lemma dict_get_table {A : Type} (col : string -> A) (ks : list string) k :
  In k ks -> dict_get k (map (fun k => (k, col k)) ks) = Some (col k).
Proof.
  induction ks as [|k' ks IH]; cbn; [tauto|].
  intros H. destruct (String.eqb_spec k k') as [->|Hne]; [reflexivity|].
  destruct H as [->|H]; [contradiction | auto].
Qed.

Lemma dict_get_table_none {A : Type} (col : string -> A) ks k :
  ~ In k ks -> dict_get k (map (fun k => (k, col k)) ks) = None.
Proof.
  induction ks as [|k' ks IH]; cbn; [reflexivity|].
  intros H. destruct (String.eqb_spec k k') as [->|Hne].
  - exfalso. apply H. now left.
  - apply IH. intros Hin. apply H. now right.
Qed.

(** *** Selection of rows *)

Lemma select_map {A B : Type} (p : A -> bool) (g : A -> B) (l : list A) :
  select (map p l) (map g l) = map g (filter p l).
Proof.
  unfold select. induction l as [|a l IH]; cbn; [reflexivity|].
  destruct (p a); cbn; now rewrite IH.
Qed.

Lemma select_labels {A B : Type} (p : A -> bool) (l : list A) :
  forall xs : list B,
    select (map p l) xs
    = map fst (filter (fun q => p (snd q)) (List.combine xs l)).
Proof.
  unfold select. induction l as [|a l IH]; intros [|x xs]; cbn;
    try reflexivity.
  destruct (p a); cbn; now rewrite IH.
Qed.

(** The rows of a table labelled from [a] on. *)
Lemma combine_seq_nth {A : Type} (l : list A) :
  forall a i x,
    In (i, x) (List.combine (seq a (List.length l)) l) <->
    (a <= i)%nat /\ nth_error l (i - a) = Some x.
Proof.
  induction l as [|y l IH]; intros a i x; cbn.
  - split; [tauto|]. intros (_ & H). destruct (i - a)%nat; discriminate.
  - rewrite IH. split.
    + intros [H | (Hle & H)].
      * inversion H; subst. rewrite Nat.sub_diag. auto.
      * split; [lia|]. replace (i - a)%nat with (S (i - S a)) by lia.
        exact H.
    + intros (Hle & H). destruct (i - a)%nat as [|m] eqn:E.
      * left. cbn in H. inversion H. f_equal. lia.
      * right. split; [lia|]. cbn in H.
        replace (i - S a)%nat with m by lia. exact H.
Qed.

(** *** The columns *)

Lemma dto_column_value data dtos key :
  Forall2 is_payload data dtos ->
  dto_column data key = Ok (map (fun dto => dto_get dto key) dtos).
Proof.
  unfold dto_column.
  induction 1 as [|d dto data dtos (env & -> & Hd) _ IH]; cbn;
    [reflexivity|].
  rewrite Hd. cbn. rewrite IH. reflexivity.
Qed.

Lemma fill_columns_value data dtos :
  Forall2 is_payload data dtos ->
  forall ks acc,
    fill_columns data ks acc
    = Ok (fold_left
            (fun acc k =>
               dict_set k (map (fun dto => dto_get dto k) dtos) acc)
            ks acc).
Proof.
  intros H. induction ks as [|k ks IH]; intros acc; cbn; [reflexivity|].
  rewrite (dto_column_value data dtos k H). cbn. apply IH.
Qed.

(** What [dto_to_df] returns on payloads whose first record has the
    key ["id"]. *)
Lemma dto_to_df_value data dtos dto0 rest :
  Forall2 is_payload data dtos -> dtos = dto0 :: rest ->
  NoDup (dict_keys dto0) -> In "id"%string (dict_keys dto0) ->
  dto_to_df data
  = Ok (mkdf
          (map fst (filter (fun q => has_id (snd q))
                      (List.combine (seq 0 (List.length dtos)) dtos)))
          (map (fun k =>
                  (k, map (fun dto => dto_get dto k) (filter has_id dtos)))
               (dict_keys dto0))).
Proof.
  intros Hp Hd Hnd Hid. unfold dto_to_df.
  pose proof Hp as Hp'. rewrite Hd in Hp'.
  inversion Hp' as [|d ? data' ? (env & -> & He) _ Edata]; subst data.
  cbn [bind getitem]. rewrite He. cbn [bind keys].
  rewrite (fill_columns_value _ dtos Hp).
  rewrite fold_dict_set_fresh by (auto; intros ? ? []).
  cbn [bind app]. unfold dropna, from_dict.
  cbn [columns index].
  rewrite dict_get_table by exact Hid.
  f_equal. f_equal.
  - destruct (dict_keys dto0) as [|k0 ks]; [destruct Hid|].
    cbn [map]. rewrite length_map.
    rewrite map_map.
    change (fun x => negb (isnull (dto_get x "id"))) with has_id.
    apply select_labels.
  - rewrite map_map. apply map_ext. intros k. cbn [fst snd].
    f_equal. rewrite map_map.
    change (fun x => negb (isnull (dto_get x "id"))) with has_id.
    apply select_map.
Qed.

Lemma filter_combine_snd {A B : Type} (p : A -> bool) (l : list A) :
  forall xs : list B,
    List.length xs = List.length l ->
    map snd (filter (fun q => p (snd q)) (List.combine xs l))
    = filter p l.
Proof.
  induction l as [|a l IH]; intros [|x xs]; cbn; try discriminate;
    try reflexivity.
  intros H. destruct (p a); cbn; rewrite IH by lia; reflexivity.
Qed.




(** C10, as stated, fails when the key set of the first record has no
    ["id"]: a later record that lacks a key changes nothing to it, the
    call raises. *)
Lemma dto_to_df_missing_key_without_id :
  dto_to_df
    [PDict [("dailySleepDTO",
             PDict [("calendarDate", PStr "2024-01-01");
                    ("sleepTimeSeconds", PInt 28800)])];
     PDict [("dailySleepDTO",
             PDict [("calendarDate", PStr "2024-01-02")])]]%string
  = Raise (KeyError "id").
Proof. reflexivity. Qed.

(** C10, amended. When the key set of the first record contains
    ["id"], [dto_to_df] returns whatever keys the later records lack;
    a row is kept if and only if its own [id] is present and not null;
    and in a kept row the cell of a key that the record lacks is
    null. *)
Theorem dto_to_df_missing_key data dtos dto0 rest :
  Forall2 is_payload data dtos -> dtos = dto0 :: rest ->
  NoDup (dict_keys dto0) -> In "id"%string (dict_keys dto0) ->
  exists df,
    dto_to_df data = Ok df
    /\ (forall i dto, nth_error dtos i = Some dto ->
          (In i (index df) <-> isnull (dto_get dto "id") = false))
    /\ (forall j i dto k col,
          nth_error (index df) j = Some i ->
          nth_error dtos i = Some dto ->
          dict_get k (columns df) = Some col ->
          dict_get k dto = None ->
          nth_error col j = Some PNone).
Proof.
  intros Hp Hd Hnd Hid. eexists. split; [eapply dto_to_df_value; eauto|].
  cbn [columns index]. split.
  - intros i dto Hi. rewrite in_map_iff. split.
    + intros ((i' & x) & Hfst & Hin). cbn in Hfst. subst i'.
      apply filter_In in Hin as (Hin & Hk). cbn in Hk.
      apply combine_seq_nth in Hin as (_ & Hx).
      rewrite Nat.sub_0_r in Hx. rewrite Hi in Hx. inversion Hx; subst x.
      unfold has_id in Hk. now apply negb_true_iff in Hk.
    + intros Hn. exists (i, dto). split; [reflexivity|].
      apply filter_In. split.
      * apply combine_seq_nth. rewrite Nat.sub_0_r. split; [lia | exact Hi].
      * cbn. unfold has_id. now rewrite Hn.
  - intros j i dto k col Hj Hi Hcol Hmiss.
    destruct (in_dec string_dec k (dict_keys dto0)) as [Hk | Hk].
    + rewrite dict_get_table in Hcol by exact Hk.
      inversion Hcol; subst col; clear Hcol.
      rewrite <- (filter_combine_snd has_id dtos
                    (seq 0 (List.length dtos))) by apply length_seq.
      rewrite map_map.
      rewrite nth_error_map in Hj |- *.
      destruct (nth_error _ j) as [[i' x]|] eqn:Ej; [|discriminate].
      cbn in Hj. inversion Hj; subst i'. cbn.
      apply nth_error_In in Ej. apply filter_In in Ej as (Hin & _).
      apply combine_seq_nth in Hin as (_ & Hx).
      rewrite Nat.sub_0_r in Hx. rewrite Hi in Hx. inversion Hx; subst x.
      unfold dto_get. now rewrite Hmiss.
    + rewrite dict_get_table_none in Hcol by exact Hk. discriminate.
Qed.

(** Two days; the second record has an [id] but no [calendarDate]. *)
Lemma dto_to_df_missing_key_witness :
  exists df,
    dto_to_df
      [PDict [("dailySleepDTO",
               PDict [("id", PInt 11); ("calendarDate", PStr "2024-01-01")])];
       PDict [("dailySleepDTO", PDict [("id", PInt 12)])]]%string
    = Ok df
    /\ (In 1%nat (index df) <-> isnull (PInt 12) = false).
Proof.
  destruct (dto_to_df_missing_key
              [PDict [("dailySleepDTO",
                 PDict [("id", PInt 11);
                        ("calendarDate", PStr "2024-01-01")])];
               PDict [("dailySleepDTO", PDict [("id", PInt 12)])]]%string
              [[("id", PInt 11); ("calendarDate", PStr "2024-01-01")];
               [("id", PInt 12)]]%string
              [("id", PInt 11); ("calendarDate", PStr "2024-01-01")]%string
              [[("id", PInt 12)]]%string)
    as (df & Hdf & Hrow & _).
  - repeat constructor; eexists; split; reflexivity.
  - reflexivity.
  - cbn. repeat constructor; cbn; intuition discriminate.
  - cbn. now left.
  - exists df. split; [exact Hdf|].
    exact (Hrow 1%nat [("id", PInt 12)]%string eq_refl).
Defined.

End FlattenerFacts.

(** ** The rolling mean *)

Module RollingFacts.
Import SleepPlot.

(** *** Slices *)

Lemma skipn_nth_error {A : Type} (l : list A) :
  forall i x, nth_error l i = Some x -> skipn i l = x :: skipn (S i) l.
Proof.
  induction l as [|a l IH]; intros [|i] x H; cbn in *; try discriminate.
  - now inversion H.
  - now apply IH.
Qed.

Lemma slice_snoc {A : Type} (l : list A) :
  forall a i x,
    (a <= i)%nat -> nth_error l i = Some x ->
    slice a (S i) l = slice a i l ++ [x].
Proof.
  unfold slice. induction l as [|y l IH]; intros a i x Ha H.
  - destruct i; discriminate.
  - destruct a as [|a].
    + cbn [skipn]. rewrite !Nat.sub_0_r. clear IH Ha.
      revert i x H. generalize (y :: l) as l'. clear.
      induction l' as [|z l' IH]; intros [|i] x H; cbn in *;
        try discriminate.
      * now inversion H.
      * f_equal. now apply IH.
    + destruct i as [|i]; [lia|]. cbn [skipn].
      replace (S (S i) - S a)%nat with (S i - a)%nat by lia.
      replace (S i - S a)%nat with (i - a)%nat by lia.
      apply IH; [lia | exact H].
Qed.

Lemma slice_cons {A : Type} (l : list A) a b x :
  (a < b)%nat -> nth_error l a = Some x ->
  slice a b l = x :: slice (S a) b l.
Proof.
  unfold slice. intros Hab H. rewrite (skipn_nth_error l a x H).
  replace (b - a)%nat with (S (b - S a)) by lia. reflexivity.
Qed.

Lemma slice_length {A : Type} (l : list A) a b :
  (b <= List.length l)%nat -> List.length (slice a b l) = (b - a)%nat.
Proof.
  unfold slice. intros H. rewrite length_firstn, length_skipn. lia.
Qed.

Lemma slice_empty {A : Type} (l : list A) a : slice a a l = [].
Proof. unfold slice. now rewrite Nat.sub_diag. Qed.

(** *** The running count and sum *)

Lemma count_obs_app l l' :
  count_obs (l ++ l') = (count_obs l + count_obs l')%nat.
Proof. unfold count_obs. now rewrite filter_app, length_app. Qed.

Lemma sum_obs_app l l' : (sum_obs (l ++ l') == sum_obs l + sum_obs l')%Q.
Proof.
  unfold sum_obs.
  induction l as [|[x|] l IH]; cbn [app fold_right].
  - now rewrite Qplus_0_l.
  - rewrite IH. apply Qplus_assoc.
  - exact IH.
Qed.

Lemma add_mean_ok l w x :
  stats_ok l w -> stats_ok (l ++ [x]) (add_mean x w).
Proof.
  intros (Hn & Hs). unfold stats_ok.
  rewrite count_obs_app, sum_obs_app.
  destruct x as [q|]; cbn [add_mean nobs sum_x].
  - split; [unfold count_obs in *; cbn; lia|].
    change (sum_obs [Some q]) with (q + 0)%Q.
    now rewrite Hs, Qplus_0_r.
  - split; [unfold count_obs in *; cbn; lia|].
    change (sum_obs [None]) with 0%Q.
    now rewrite Hs, Qplus_0_r.
Qed.

Lemma remove_mean_ok l w x :
  stats_ok (x :: l) w -> stats_ok l (remove_mean x w).
Proof.
  intros (Hn & Hs). unfold stats_ok, count_obs in *.
  destruct x as [q|]; cbn [remove_mean nobs sum_x].
  - split; [cbn in Hn; lia|].
    rewrite Hs. change (sum_obs (Some q :: l)) with (q + sum_obs l)%Q.
    unfold Qminus. rewrite (Qplus_comm q), <- Qplus_assoc, Qplus_opp_r.
    apply Qplus_0_r.
  - split; assumption.
Qed.

Lemma count_obs_le l : (count_obs l <= List.length l)%nat.
Proof. unfold count_obs. apply filter_length_le. Qed.

Lemma count_obs_full l :
  count_obs l = List.length l ->
  exists vs, l = map Some vs /\ sum_obs l = Qsum vs.
Proof.
  induction l as [|[x|] l IH]; cbn; intros H.
  - exists []. split; reflexivity.
  - unfold count_obs in *. cbn in H.
    destruct IH as (vs & -> & E); [lia|].
    exists (x :: vs). split; [reflexivity|].
    unfold Qsum, sum_obs in *. cbn [fold_right]. now rewrite E.
  - pose proof (count_obs_le l). unfold count_obs in *. cbn in H. lia.
Qed.

Lemma count_obs_short l :
  (count_obs l < List.length l)%nat -> In None l.
Proof.
  induction l as [|[x|] l IH]; unfold count_obs in *; cbn; intros H.
  - lia.
  - right. apply IH. lia.
  - now left.
Qed.

(** The mean that pandas computes from the running count and sum of a
    window of at most [n] rows. *)
Lemma calc_mean_ok n l w :
  (0 < n)%nat -> (List.length l <= n)%nat -> stats_ok l w ->
  mean_of_window n l (calc_mean n w).
Proof.
  intros Hn Hl (Hc & Hs). unfold calc_mean.
  pose proof (count_obs_le l) as Hle.
  destruct (Nat.leb_spec n (nobs w)) as [Hge | Hlt]; cbn [andb].
  - destruct (Nat.ltb_spec 0 (nobs w)) as [_ | ?]; [|lia].
    cbn. destruct (count_obs_full l) as (vs & El & Es); [lia|].
    exists vs. split; [exact El|]. split.
    + rewrite <- (length_map Some vs), <- El. lia.
    + rewrite Hs, Es. replace (nobs w) with n by lia. reflexivity.
  - cbn. destruct (Nat.eq_dec (List.length l) n) as [E | E].
    + right. apply count_obs_short. lia.
    + left. lia.
Qed.

(** *** One pass over the column *)

Lemma roll_mean_nth n col :
  (0 < n)%nat ->
  forall m i w,
    (i + m = List.length col)%nat ->
    stats_ok (slice (i - n) i col) w ->
    forall k,
      (i <= k < List.length col)%nat ->
      exists r,
        nth_error (roll_mean n (skipn (i - n) col) (skipn i col) i w)
                  (k - i) = Some r
        /\ mean_of_window n (slice (k + 1 - n) (k + 1) col) r.
Proof.
  intros Hn. induction m as [|m IH]; intros i w Hlen Hw k Hk; [lia|].
  destruct (nth_error col i) as [x|] eqn:Ex;
    [|apply nth_error_None in Ex; lia].
  rewrite (skipn_nth_error col i x Ex). cbn [roll_mean].
  pose proof (add_mean_ok _ _ x Hw) as Hw1.
  rewrite <- (slice_snoc col (i - n) i x) in Hw1 by (auto; lia).
  destruct (Nat.leb_spec n i) as [Hni | Hni].
  - destruct (nth_error col (i - n)) as [old|] eqn:Eo;
      [|apply nth_error_None in Eo; lia].
    rewrite (skipn_nth_error col (i - n) old Eo).
    rewrite (slice_cons col (i - n) (S i) old) in Hw1 by (auto; lia).
    apply remove_mean_ok in Hw1.
    replace (S (i - n)) with (S i - n)%nat in * by lia.
    destruct (Nat.eq_dec k i) as [-> | Hne].
    + rewrite Nat.sub_diag. cbn [nth_error]. eexists. split; [reflexivity|].
      replace (i + 1)%nat with (S i) by lia.
      apply calc_mean_ok; auto.
      rewrite slice_length by lia. lia.
    + replace (k - i)%nat with (S (k - S i)) by lia. cbn [nth_error].
      apply (IH (S i)); auto; lia.
  - assert (i - n = S i - n)%nat as Ei by lia. rewrite Ei in *.
    destruct (Nat.eq_dec k i) as [-> | Hne].
    + rewrite Nat.sub_diag. cbn [nth_error]. eexists. split; [reflexivity|].
      replace (i + 1)%nat with (S i) by lia.
      apply calc_mean_ok; auto.
      rewrite slice_length by lia. lia.
    + replace (k - i)%nat with (S (k - S i)) by lia. cbn [nth_error].
      apply (IH (S i)); auto; lia.
Qed.

(** Row [k] of [col.rolling(n).mean()] is the mean of the window that
    ends at row [k]. *)
Lemma rolling_mean_nth n col k :
  (0 < n)%nat -> (k < List.length col)%nat ->
  exists r,
    nth_error (rolling_mean n col) k = Some r
    /\ mean_of_window n (slice (k + 1 - n) (k + 1) col) r.
Proof.
  intros Hn Hk. unfold rolling_mean.
  destruct (roll_mean_nth n col Hn (List.length col) 0 (mkwindow 0 0)
              eq_refl) with (k := k) as (r & Hr & Hm).
  - cbn [Nat.sub]. rewrite slice_empty. split; reflexivity.
  - lia.
  - rewrite Nat.sub_0_r in Hr. cbn [Nat.sub skipn] in Hr. eauto.
Qed.

Lemma roll_mean_length n :
  forall incoming outgoing i w,
    List.length (roll_mean n outgoing incoming i w) = List.length incoming.
Proof.
  induction incoming as [|x incoming IH]; intros outgoing i w; cbn;
    [reflexivity|].
  destruct (n <=? i)%nat; [destruct outgoing|]; cbn; now rewrite IH.
Qed.

Lemma rolling_mean_length n col :
  List.length (rolling_mean n col) = List.length col.
Proof. apply roll_mean_length. Qed.

End RollingFacts.

(** ** The normalised table *)

Module CleanDataFacts.
Import SleepPlot RollingFacts.

(** *** Sorting *)

Lemma insert_by_date_In r l x :
  In x (insert_by_date r l) <-> x = r \/ In x l.
Proof.
  induction l as [|y l IH]; cbn.
  - intuition.
  - destruct (_ <? _); cbn; [intuition|]. rewrite IH. intuition.
Qed.

Lemma insert_by_date_sorted r l :
  Sorted date_le l -> Sorted date_le (insert_by_date r l).
Proof.
  induction 1 as [|y l Hs IH Hhd]; cbn.
  - repeat constructor.
  - destruct (Z.ltb_spec (toordinal (date_ r)) (toordinal (date_ y))).
    + constructor; [now constructor|]. constructor. unfold date_le. lia.
    + constructor; [exact IH|].
      destruct l as [|z l]; cbn.
      * constructor. unfold date_le. lia.
      * destruct (_ <? _); constructor; unfold date_le; try lia.
        now inversion Hhd.
Qed.

Lemma sort_values_date_sorted df : Sorted date_le (sort_values_date df).
Proof.
  unfold sort_values_date. induction (rev df) as [|r l IH]; cbn.
  - constructor.
  - now apply insert_by_date_sorted.
Qed.

Lemma sort_values_date_In df x : In x (sort_values_date df) <-> In x df.
Proof.
  unfold sort_values_date. rewrite (in_rev df).
  induction (rev df) as [|r l IH]; cbn; [tauto|].
  rewrite insert_by_date_In, IH. intuition.
Qed.

Lemma date_le_trans : Relations_1.Transitive date_le.
Proof. intros a b c. unfold date_le. lia. Qed.

(** *** The stages of [clean_data] *)

Lemma mapM_project {A B : Type} (f : A -> result B) (g : B -> A) l bs :
  (forall a b, f a = Ok b -> g b = a) ->
  mapM f l = Ok bs -> map g bs = l.
Proof.
  intros Hg H. apply mapM_Forall2 in H.
  induction H as [|a b l bs Hab _ IH]; cbn; [reflexivity|].
  now rewrite (Hg a b Hab), IH.
Qed.

Lemma convert_row_raw to_datetime r x :
  convert_row to_datetime r = Ok x -> d_raw x = r.
Proof.
  unfold convert_row.
  destruct (to_datetime _); cbn; [|discriminate].
  destruct (datetime_of_ms _); cbn; [|discriminate].
  destruct (datetime_of_ms _); cbn; [|discriminate].
  destruct (timedelta_of_s _); cbn; [|discriminate].
  intros H; now inversion H.
Qed.

Lemma relative_row_dated r x : relative_row r = Ok x -> r_dated x = r.
Proof.
  unfold relative_row.
  destruct (make_relative_cell (bedtime r) _); cbn; [|discriminate].
  destruct (make_relative_cell (wakeup r) _); cbn; [|discriminate].
  destruct (format_relative_seconds _ _); cbn; [|discriminate].
  destruct (format_relative_seconds _ _); cbn; [|discriminate].
  intros H; now inversion H.
Qed.

Lemma add_rolling_columns (df : list rel_row) :
  map r_rel (add_rolling df) = df
  /\ map rm_bedtime (add_rolling df) = rolling_mean 7 (map r_bedtime df)
  /\ map rm_wakeup (add_rolling df) = rolling_mean 7 (map r_wakeup df).
Proof.
  unfold add_rolling.
  pose proof (rolling_mean_length 7 (map r_bedtime df)) as Hb.
  pose proof (rolling_mean_length 7 (map r_wakeup df)) as Hw.
  rewrite length_map in Hb, Hw.
  revert Hb Hw.
  generalize (rolling_mean 7 (map r_bedtime df)) as rb.
  generalize (rolling_mean 7 (map r_wakeup df)) as rw.
  induction df as [|r df IH]; intros [|w rw] [|b rb]; cbn;
    try discriminate; [auto|].
  intros Hb Hw.
  destruct (IH rw rb) as (E1 & E2 & E3); [lia | lia |].
  now rewrite E1, E2, E3.
Qed.

(** What [clean_data] returns, stage by stage. *)
Lemma clean_data_stages to_datetime df t :
  clean_data to_datetime df = Ok t ->
  exists converted rel,
    mapM (convert_row to_datetime) (dropna_id df) = Ok converted
    /\ clean_data_sorted to_datetime df = Ok (sort_values_date converted)
    /\ mapM relative_row (sort_values_date converted) = Ok rel
    /\ t = add_rolling rel.
Proof.
  unfold clean_data, clean_data_sorted.
  destruct (mapM (convert_row to_datetime) _) as [converted|] eqn:Ec;
    cbn [bind]; [|discriminate].
  destruct (mapM relative_row _) as [rel|] eqn:Er; cbn [bind];
    [|discriminate].
  intros H; inversion H. eauto 6.
Qed.

(** C7. After [clean_data], and already in the table that
    [sort_values] returns, before the relative, formatted and rolling
    columns are added, every row has an [id] and the rows are in
    non-decreasing order of their dates; the rows of the final table
    are those rows, in that order. *)
Theorem clean_data_invariant to_datetime df t :
  clean_data to_datetime df = Ok t ->
  exists sorted,
    clean_data_sorted to_datetime df = Ok sorted
    /\ Forall (fun r => id (d_raw r) <> None) sorted
    /\ StronglySorted date_le sorted
    /\ map (fun r => r_dated (r_rel r)) t = sorted
    /\ Forall (fun r => row_id r <> None) t.
Proof.
  intros H.
  destruct (clean_data_stages _ _ _ H) as (converted & rel & Hc & Hs & Hr & ->).
  assert (Forall (fun r => id (d_raw r) <> None)
            (sort_values_date converted)) as Hid.
  { apply Forall_forall. intros x Hx.
    apply (proj1 (sort_values_date_In _ _)) in Hx.
    apply (in_map d_raw) in Hx.
    rewrite (mapM_project _ d_raw _ _ (convert_row_raw to_datetime) Hc)
      in Hx.
    apply filter_In in Hx as (_ & Hx).
    destruct (id (d_raw x)); [discriminate | discriminate]. }
  assert (map (fun r => r_dated (r_rel r)) (add_rolling rel)
          = sort_values_date converted) as Hrows.
  { rewrite <- (map_map r_rel r_dated).
    rewrite (proj1 (add_rolling_columns rel)).
    exact (mapM_project _ r_dated _ _ relative_row_dated Hr). }
  exists (sort_values_date converted). repeat split; auto.
  - apply Sorted_StronglySorted;
      [exact date_le_trans | apply sort_values_date_sorted].
  - rewrite <- Hrows in Hid. rewrite Forall_map in Hid. exact Hid.
Qed.

(** The eight days: seven rows are left, in the order of the dates. *)
Lemma clean_data_invariant_witness :
  exists sorted,
    clean_data_sorted strptime_Ymd eight_days = Ok sorted
    /\ Forall (fun r => id (d_raw r) <> None) sorted
    /\ StronglySorted date_le sorted
    /\ map (fun r => calendarDate (d_raw r)) sorted
       = ["2024-01-01"; "2024-01-02"; "2024-01-04"; "2024-01-05";
          "2024-01-06"; "2024-01-07"; "2024-01-08"]%string.
Proof.
  destruct (clean_data strptime_Ymd eight_days) as [t|e] eqn:E;
    [|vm_compute in E; discriminate].
  destruct (clean_data_invariant strptime_Ymd eight_days t E)
    as (sorted & Hs & Hid & Hsorted & _).
  exists sorted. repeat split; auto.
  vm_compute in Hs. inversion Hs. reflexivity.
Defined.

(** The rolling mean of a column over windows of seven rows. *)
Lemma rolling_mean_seven col :
  (forall i, (i < 6)%nat -> (i < List.length col)%nat ->
             nth_error (rolling_mean 7 col) i = Some None)
  /\ (forall i vs, (6 <= i < List.length col)%nat ->
        slice (i - 6) (i + 1) col = map Some vs ->
        exists m, nth_error (rolling_mean 7 col) i = Some (Some m)
                  /\ (m == Qsum vs / 7)%Q)
  /\ (forall i, (6 <= i < List.length col)%nat ->
        In None (slice (i - 6) (i + 1) col) ->
        nth_error (rolling_mean 7 col) i = Some None).
Proof.
  split; [|split].
  - intros i Hi Hlen.
    destruct (rolling_mean_nth 7 col i ltac:(lia) Hlen) as (r & Hr & Hm).
    rewrite Hr. destruct r as [m|]; [|reflexivity]. exfalso.
    destruct Hm as (vs & Hvs & Hl & _).
    apply (f_equal (@List.length _)) in Hvs.
    rewrite slice_length, length_map in Hvs by lia. lia.
  - intros i vs Hi Hvs.
    destruct (rolling_mean_nth 7 col i ltac:(lia) (proj2 Hi))
      as (r & Hr & Hm).
    replace (i + 1 - 7)%nat with (i - 6)%nat in Hm by lia.
    rewrite Hr. destruct r as [m|].
    + exists m. split; [reflexivity|].
      destruct Hm as (vs' & Hvs' & _ & Hm). rewrite Hvs in Hvs'.
      assert (vs' = vs) as ->.
      { clear -Hvs'. revert vs' Hvs'.
        induction vs as [|v vs IH]; intros [|v' vs'] H; cbn in H;
          try discriminate; [reflexivity|].
        inversion H. f_equal. now apply IH. }
      exact Hm.
    + exfalso. destruct Hm as [Hm | Hm].
      * rewrite slice_length in Hm by lia. lia.
      * rewrite Hvs in Hm. apply in_map_iff in Hm as (? & ? & _).
        discriminate.
  - intros i Hi Hnone.
    destruct (rolling_mean_nth 7 col i ltac:(lia) (proj2 Hi))
      as (r & Hr & Hm).
    replace (i + 1 - 7)%nat with (i - 6)%nat in Hm by lia.
    rewrite Hr. destruct r as [m|]; [|reflexivity]. exfalso.
    destruct Hm as (vs & Hvs & _). rewrite Hvs in Hnone.
    apply in_map_iff in Hnone as (? & ? & _). discriminate.
Qed.

(** C5. In the table that [clean_data] returns, [rm_bedtime] and
    [rm_wakeup] are null in rows 0 to 5; in a row [i] from 6 on,
    [rm_bedtime] is the arithmetic mean of [r_bedtime] over the rows
    [i - 6] to [i], and likewise [rm_wakeup] of [r_wakeup]; a null in
    those seven rows makes the mean null. *)
Theorem clean_data_rolling_mean to_datetime df t :
  clean_data to_datetime df = Ok t ->
  let rb := map (fun r => r_bedtime (r_rel r)) t in
  let rw := map (fun r => r_wakeup (r_rel r)) t in
  (forall i, (i < 6)%nat -> (i < List.length t)%nat ->
     nth_error (map rm_bedtime t) i = Some None
     /\ nth_error (map rm_wakeup t) i = Some None)
  /\ (forall i vs, (6 <= i < List.length t)%nat ->
        slice (i - 6) (i + 1) rb = map Some vs ->
        exists m, nth_error (map rm_bedtime t) i = Some (Some m)
                  /\ (m == Qsum vs / 7)%Q)
  /\ (forall i vs, (6 <= i < List.length t)%nat ->
        slice (i - 6) (i + 1) rw = map Some vs ->
        exists m, nth_error (map rm_wakeup t) i = Some (Some m)
                  /\ (m == Qsum vs / 7)%Q)
  /\ (forall i, (6 <= i < List.length t)%nat ->
        (In None (slice (i - 6) (i + 1) rb) ->
         nth_error (map rm_bedtime t) i = Some None)
        /\ (In None (slice (i - 6) (i + 1) rw) ->
            nth_error (map rm_wakeup t) i = Some None)).
Proof.
  intros H rb rw.
  destruct (clean_data_stages _ _ _ H) as (converted & rel & _ & _ & _ & ->).
  destruct (add_rolling_columns rel) as (Erel & Eb & Ew).
  assert (rb = map r_bedtime rel) as ->
    by (subst rb; now rewrite <- (map_map r_rel r_bedtime), Erel).
  assert (rw = map r_wakeup rel) as ->
    by (subst rw; now rewrite <- (map_map r_rel r_wakeup), Erel).
  assert (List.length (add_rolling rel) = List.length rel) as El
    by (rewrite <- Erel at 2; now rewrite length_map).
  rewrite Eb, Ew, El.
  destruct (rolling_mean_seven (map r_bedtime rel)) as (B1 & B2 & B3).
  destruct (rolling_mean_seven (map r_wakeup rel)) as (W1 & W2 & W3).
  rewrite length_map in *.
  repeat split; auto.
Qed.

(** The eight days: seven rows are left; the sixth has no rolling
    mean of the bedtimes and the seventh has the mean of all seven. *)
Lemma clean_data_rolling_mean_witness :
  exists t,
    clean_data strptime_Ymd eight_days = Ok t
    /\ List.length t = 7%nat
    /\ nth_error (map rm_bedtime t) 5 = Some None
    /\ exists m,
         nth_error (map rm_bedtime t) 6 = Some (Some m)
         /\ (m == Qsum [3540; 3480; 3360; 3300; 3240; 3180; 3120] / 7)%Q.
Proof.
  destruct (clean_data strptime_Ymd eight_days) as [t|e] eqn:E;
    [|vm_compute in E; discriminate].
  destruct (clean_data_rolling_mean strptime_Ymd eight_days t E)
    as (Hnull & Hmean & _).
  assert (List.length t = 7%nat) as Hlen
    by (vm_compute in E; inversion E; reflexivity).
  exists t. split; [reflexivity|]. split; [exact Hlen|]. split.
  - apply Hnull; lia.
  - apply Hmean; [lia|].
    vm_compute in E. inversion E. reflexivity.
Defined.

End CleanDataFacts.

(** ** More on the bulk fetch *)

Module ClientExtras.
Import GarminClient ClientFacts.

(** Bounds on concrete dates, by computation. *)
Ltac check_valid :=
  unfold valid_datetime, valid_date, MAXORDINAL;
  repeat split; (apply Z.leb_le || apply Z.ltb_lt); vm_compute; reflexivity.

(** The count of the generator for any two datetimes. *)
Lemma daterange_len_general start end_ :
  valid_datetime start -> valid_datetime end_ ->
  toordinal (dt_date end_) < MAXORDINAL ->
  daterange_len start end_ = Ok (whole_days start end_).
Proof.
  intros Hs He Hmax. unfold daterange_len, one_day.
  pose proof He as (Hoe & _). unfold valid_date in Hoe.
  rewrite dt_add_days by (auto; lia). cbn [bind].
  destruct Hs as (Hos & Hh & Hm & Hsec & Hus).
  destruct He as (_ & Hh' & Hm' & Hsec' & Hus').
  unfold valid_date, MAXORDINAL, whole_days, time_of_day in *.
  unfold dt_sub. cbn [dt_date hour minute second microsecond toordinal].
  set (te := (hour end_ * 3600 + minute end_ * 60 + second end_)
             * 1000000 + microsecond end_).
  set (ts := (hour start * 3600 + minute start * 60 + second start)
             * 1000000 + microsecond start).
  assert (0 <= te < 86400000000) as Hte by (subst te; lia).
  assert (0 <= ts < 86400000000) as Hts by (subst ts; lia).
  rewrite (new_timedelta_eq _ _ _
             (toordinal (dt_date end_) + 1 - toordinal (dt_date start)
              - (if te <? ts then 1 else 0))
             (((te - ts) mod 86400000000) / 1000000)
             (((te - ts) mod 86400000000) mod 1000000)).
  - reflexivity.
  - unfold MAXDAYS. destruct (te <? ts); lia.
  - Z.div_mod_to_equations. lia.
  - apply Z.mod_pos_bound. lia.
  - destruct (Z.ltb_spec te ts); subst te ts; Z.div_mod_to_equations; lia.
Qed.

(** X1. [daterange(start, end)] yields, in ascending order, [start]
    moved by 0, 1, 2, ... days, each at the time of day of [start]; their
    number is the number of whole days in [end + 1 day - start]. *)
Theorem daterange_values start end_ :
  valid_datetime start -> valid_datetime end_ ->
  toordinal (dt_date end_) < MAXORDINAL ->
  daterange start end_
  = Ok (map (fun k => shift_days start (Z.of_nat k))
          (seq 0 (Z.to_nat (whole_days start end_)))).
Proof.
  intros Hs He Hmax. unfold daterange.
  rewrite daterange_len_general by auto. cbn [bind].
  rewrite py_range_from_zero, mapM_map.
  apply mapM_ok_map. intros k Hk. apply in_seq in Hk.
  pose proof He as ((_ & Hoe) & _). pose proof Hs as ((Hos & _) & _).
  unfold shift_days. apply daterange_item_value; auto; [lia|].
  unfold whole_days, MAXORDINAL in *.
  destruct (time_of_day end_ <? time_of_day start); lia.
Qed.

(** From the evening of the first of January to the morning of the
    third: two dates, not three. *)
Lemma daterange_values_witness :
  daterange (at_ymd_hms 2024 1 1 23 0 0) (at_ymd_hms 2024 1 3 1 0 0)
  = Ok [at_ymd_hms 2024 1 1 23 0 0; at_ymd_hms 2024 1 2 23 0 0].
Proof.
  rewrite (daterange_values (at_ymd_hms 2024 1 1 23 0 0)
             (at_ymd_hms 2024 1 3 1 0 0)).
  - reflexivity.
  - unfold valid_datetime, valid_date, MAXORDINAL; cbn; lia.
  - unfold valid_datetime, valid_date, MAXORDINAL; cbn; lia.
  - unfold MAXORDINAL; cbn; lia.
Defined.

Section Client.

Variable payload : Type.
Variable wellness : date -> Z -> result payload.

(** The loop up to the first fetch that raises. *)
Lemma bulk_loop_raise start buffer :
  valid_datetime start ->
  forall ns1 n ns2 data s ps e,
    (forall m, In m (ns1 ++ [n]) ->
               0 <= m /\ toordinal (dt_date start) + m <= MAXORDINAL) ->
    mapM (fun m => wellness (mkdate (toordinal (dt_date start) + m)) buffer)
         ns1 = Ok ps ->
    wellness (mkdate (toordinal (dt_date start) + n)) buffer = Raise e ->
    bulk_loop payload wellness start buffer (ns1 ++ n :: ns2) data s
    = (Raise e,
       s ++ map (fun m => mkdate (toordinal (dt_date start) + m)) ns1
         ++ [mkdate (toordinal (dt_date start) + n)]).
Proof.
  intros Hv. induction ns1 as [|m ns1 IH]; intros n ns2 data s ps e Hin Hm He.
  - cbn [app bulk_loop map].
    destruct (Hin n (or_introl eq_refl)) as (Hn0 & Hn1).
    rewrite daterange_item_value by auto.
    unfold get_sleep_data. cbn [dt_date]. now rewrite He.
  - cbn [app bulk_loop map]. cbn in Hm.
    destruct (Hin m (or_introl eq_refl)) as (Hm0 & Hm1).
    rewrite daterange_item_value by auto.
    unfold get_sleep_data. cbn [dt_date].
    destruct (wellness _ buffer) as [p|] eqn:Ew; [|discriminate].
    cbn in Hm.
    destruct (mapM _ ns1) as [ps'|] eqn:Em; [|discriminate].
    rewrite (IH n ns2 _ _ ps' e); auto.
    + now rewrite <- !app_assoc.
    + intros m' Hm'. apply Hin. now right.
Qed.

Lemma days_fetched_bounds start end_ k :
  valid_datetime start -> valid_datetime end_ ->
  In k (seq 0 (Z.to_nat (whole_days start end_))) ->
  0 <= Z.of_nat k
  /\ toordinal (dt_date start) + Z.of_nat k <= MAXORDINAL.
Proof.
  intros ((Hos & _) & _) ((_ & Hoe) & _) Hk. apply in_seq in Hk.
  unfold whole_days, MAXORDINAL in *.
  destruct (time_of_day end_ <? time_of_day start); lia.
Qed.

(** The days requested and the results, when every fetch returns. *)
Lemma get_bulk_sleep_data_days start end_ buffer s ps :
  valid_datetime start -> valid_datetime end_ ->
  toordinal (dt_date end_) < MAXORDINAL ->
  mapM (fun d => wellness d buffer) (days_fetched start end_) = Ok ps ->
  get_bulk_sleep_data payload wellness start end_ buffer s
  = (Ok ps, s ++ days_fetched start end_).
Proof.
  intros Hs He Hmax Hm. unfold get_bulk_sleep_data.
  rewrite daterange_len_general by auto.
  rewrite py_range_from_zero. unfold days_fetched in *.
  rewrite (bulk_loop_ok payload wellness start buffer Hs _ [] s ps).
  - cbn [app]. now rewrite map_map.
  - intros n Hn. apply in_map_iff in Hn as (k & <- & Hk).
    eapply days_fetched_bounds; eauto.
  - rewrite mapM_map. rewrite mapM_map in Hm. exact Hm.
Qed.

(** X2. For any two datetimes, [get_bulk_sleep_data] asks for the days
    of [daterange]: as many days as there are whole days in
    [end + 1 day - start], from the day of [start] on. When the start is
    later in its day than the end in its own, the day of [end] is
    therefore not fetched: the days are those from the day of [start] to
    the day before the day of [end]. *)
Theorem get_bulk_sleep_data_late_start start end_ buffer s ps :
  valid_datetime start -> valid_datetime end_ ->
  toordinal (dt_date end_) < MAXORDINAL ->
  time_of_day end_ < time_of_day start ->
  mapM (fun d => wellness d buffer)
       (calendar_days (dt_date start)
          (mkdate (toordinal (dt_date end_) - 1))) = Ok ps ->
  get_bulk_sleep_data payload wellness start end_ buffer s
  = (Ok ps,
     s ++ calendar_days (dt_date start)
            (mkdate (toordinal (dt_date end_) - 1))).
Proof.
  intros Hs He Hmax Htod Hm.
  assert (calendar_days (dt_date start)
            (mkdate (toordinal (dt_date end_) - 1))
          = days_fetched start end_) as E.
  { rewrite calendar_days_from. unfold days_fetched, whole_days.
    cbn [toordinal].
    destruct (Z.ltb_spec (time_of_day end_) (time_of_day start)); [|lia].
    do 2 f_equal. lia. }
  rewrite E in *. now apply get_bulk_sleep_data_days.
Qed.

(** X3. Fail fast: when the fetch of one of the days raises, after the
    fetches of the days before it returned, [get_bulk_sleep_data] raises
    that exception; the days before and the failing day have been
    requested, in order, and no later day is requested. *)
Theorem get_bulk_sleep_data_fail_fast start end_ buffer s pre d post ps e :
  valid_datetime start -> valid_datetime end_ ->
  toordinal (dt_date end_) < MAXORDINAL ->
  days_fetched start end_ = pre ++ d :: post ->
  mapM (fun d => wellness d buffer) pre = Ok ps ->
  wellness d buffer = Raise e ->
  get_bulk_sleep_data payload wellness start end_ buffer s
  = (Raise e, s ++ pre ++ [d]).
Proof.
  intros Hs He Hmax Hdays Hpre Hd. unfold get_bulk_sleep_data.
  rewrite daterange_len_general by auto.
  rewrite py_range_from_zero.
  unfold days_fetched in Hdays.
  assert (forall k, In k (seq 0 (Z.to_nat (whole_days start end_))) ->
                    0 <= Z.of_nat k
                    /\ toordinal (dt_date start) + Z.of_nat k <= MAXORDINAL)
    as Hb by (intros; eapply days_fetched_bounds; eauto).
  revert Hdays Hb. generalize (seq 0 (Z.to_nat (whole_days start end_))).
  intros ks Hdays Hb.
  apply map_eq_app in Hdays as (ks1 & ks2 & -> & <- & Hks2).
  destruct ks2 as [|k ks2]; [discriminate|]. cbn in Hks2.
  inversion Hks2; subst d post. rewrite map_app. cbn [map].
  rewrite (bulk_loop_raise start buffer Hs (map Z.of_nat ks1) (Z.of_nat k)
             (map Z.of_nat ks2) [] s ps e).
  - now rewrite map_map.
  - intros m Hm. apply in_app_iff in Hm as [Hm | [<- | []]].
    + apply in_map_iff in Hm as (k' & <- & Hk'). apply Hb.
      apply in_app_iff. now left.
    + apply Hb. apply in_app_iff. right. now left.
  - rewrite mapM_map. rewrite mapM_map in Hpre. exact Hpre.
  - exact Hd.
Qed.

(** X4. On the last day of the calendar the end cannot be moved one day
    on: [get_bulk_sleep_data] raises [OverflowError] and requests
    nothing. *)
Theorem get_bulk_sleep_data_last_day start end_ buffer s :
  valid_datetime end_ -> toordinal (dt_date end_) = MAXORDINAL ->
  get_bulk_sleep_data payload wellness start end_ buffer s
  = (Raise OverflowError, s).
Proof.
  intros (Hd & Hh & Hm & Hs & Hus) Hmax.
  unfold get_bulk_sleep_data, daterange_len, one_day, dt_add.
  unfold valid_date, MAXORDINAL in *.
  rewrite (new_timedelta_normal (toordinal (dt_date end_)))
    by (unfold MAXDAYS; lia).
  cbn [bind]. unfold td_add. cbn [days seconds microseconds].
  rewrite (new_timedelta_eq _ _ _ (toordinal (dt_date end_) + 1)
             (hour end_ * 3600 + minute end_ * 60 + second end_)
             (microsecond end_)) by (unfold MAXDAYS; lia).
  cbn [bind days]. unfold MAXORDINAL.
  destruct (Z.leb_spec (toordinal (dt_date end_) + 1) 3652059); [lia|].
  now rewrite andb_false_r.
Qed.

(** X5. [last_n_days(n)] asks for [n + 1] days: today and the [n] days
    before it, in ascending order, and returns their results in that
    order, when every fetch returns. *)
Theorem last_n_days_range n today s ps :
  valid_datetime today -> 0 <= n ->
  1 <= toordinal (dt_date today) - n ->
  toordinal (dt_date today) < MAXORDINAL ->
  mapM (fun d => wellness d 60)
       (calendar_days (mkdate (toordinal (dt_date today) - n))
          (dt_date today)) = Ok ps ->
  last_n_days payload wellness n today s
  = (Ok ps,
     s ++ calendar_days (mkdate (toordinal (dt_date today) - n))
            (dt_date today))
  /\ List.length ps = Z.to_nat (n + 1).
Proof.
  intros Hv Hn Hlo Hmax Hm. unfold last_n_days.
  pose proof Hv as ((_ & Hhi) & Hfields). unfold MAXORDINAL in *.
  rewrite new_timedelta_normal by (unfold MAXDAYS; lia).
  cbn [bind]. unfold dt_sub_td, td_neg. cbn [days seconds microseconds].
  rewrite (new_timedelta_eq _ _ _ (- n) 0 0) by (unfold MAXDAYS; lia).
  cbn [bind]. rewrite dt_add_days by (auto; unfold MAXORDINAL; lia).
  replace (toordinal (dt_date today) + - n)
    with (toordinal (dt_date today) - n) by lia.
  set (start := mkdatetime (mkdate (toordinal (dt_date today) - n))
                  (hour today) (minute today) (second today)
                  (microsecond today)).
  assert (calendar_days (mkdate (toordinal (dt_date today) - n))
            (dt_date today)
          = days_fetched start today) as E.
  { rewrite calendar_days_from. unfold days_fetched, whole_days, time_of_day.
    subst start. cbn [toordinal dt_date hour minute second microsecond].
    rewrite Z.ltb_irrefl. do 2 f_equal. lia. }
  split.
  - rewrite E in *. apply get_bulk_sleep_data_days; auto.
    subst start. unfold valid_datetime, valid_date, MAXORDINAL in *.
    cbn [toordinal dt_date hour minute second microsecond]. repeat split; lia.
  - apply mapM_length in Hm. rewrite Hm, calendar_days_from.
    rewrite length_map, length_seq. cbn [toordinal]. f_equal. lia.
Qed.

End Client.

(** Two days, the second of which the service refuses. *)
Lemma get_bulk_sleep_data_fail_fast_witness :
  get_bulk_sleep_data date
    (fun d _ => if toordinal d =? 738887 then Raise ServiceError else Ok d)
    (at_ymd_hms 2024 1 1 8 0 0) (at_ymd_hms 2024 1 3 8 0 0) 60 []
  = (Raise ServiceError, [] ++ [ymd 2024 1 1] ++ [ymd 2024 1 2]).
Proof.
  apply (get_bulk_sleep_data_fail_fast date _
           (at_ymd_hms 2024 1 1 8 0 0) (at_ymd_hms 2024 1 3 8 0 0) 60 []
           [ymd 2024 1 1] (ymd 2024 1 2) [ymd 2024 1 3] [ymd 2024 1 1]).
  - unfold valid_datetime, valid_date, MAXORDINAL; cbn; lia.
  - unfold valid_datetime, valid_date, MAXORDINAL; cbn; lia.
  - unfold MAXORDINAL; cbn; lia.
  - reflexivity.
  - reflexivity.
  - reflexivity.
Defined.

(** From 23:00 on the first to 01:00 on the third: two days. *)
Lemma get_bulk_sleep_data_late_start_witness :
  get_bulk_sleep_data date (fun d _ => Ok d)
    (at_ymd_hms 2024 1 1 23 0 0) (at_ymd_hms 2024 1 3 1 0 0) 60 []
  = (Ok [ymd 2024 1 1; ymd 2024 1 2],
     [] ++ calendar_days (ymd 2024 1 1) (mkdate (toordinal (ymd 2024 1 3) - 1))).
Proof.
  apply (get_bulk_sleep_data_late_start date (fun d _ => Ok d)
           (at_ymd_hms 2024 1 1 23 0 0) (at_ymd_hms 2024 1 3 1 0 0)).
  - unfold valid_datetime, valid_date, MAXORDINAL; cbn; lia.
  - unfold valid_datetime, valid_date, MAXORDINAL; cbn; lia.
  - unfold MAXORDINAL; cbn; lia.
  - cbn; lia.
  - reflexivity.
Defined.

(** The last instant of the calendar as the end of the range. *)
Lemma get_bulk_sleep_data_last_day_witness :
  get_bulk_sleep_data date (fun d _ => Ok d)
    (at_ymd_hms 9999 12 30 0 0 0) (at_ymd_hms 9999 12 31 0 0 0) 60 []
  = (Raise OverflowError, []).
Proof.
  apply (get_bulk_sleep_data_last_day date (fun d _ => Ok d)).
  - check_valid.
  - reflexivity.
Defined.

(** The last two days before 2024-01-03 at 08:00, and that day. *)
Lemma last_n_days_range_witness :
  last_n_days date (fun d _ => Ok d) 2 (at_ymd_hms 2024 1 3 8 0 0) []
  = (Ok [ymd 2024 1 1; ymd 2024 1 2; ymd 2024 1 3],
     [] ++ calendar_days
             (mkdate (toordinal (dt_date (at_ymd_hms 2024 1 3 8 0 0)) - 2))
             (dt_date (at_ymd_hms 2024 1 3 8 0 0)))
  /\ List.length [ymd 2024 1 1; ymd 2024 1 2; ymd 2024 1 3]
     = Z.to_nat (2 + 1).
Proof.
  apply (last_n_days_range date (fun d _ => Ok d) 2
           (at_ymd_hms 2024 1 3 8 0 0) []).
  - unfold valid_datetime, valid_date, MAXORDINAL; cbn; lia.
  - lia.
  - cbn; lia.
  - unfold MAXORDINAL; cbn; lia.
  - reflexivity.
Defined.

End ClientExtras.

(** ** More on the flattener *)

Module FlattenerExtras.
Import SleepDownloader FlattenerFacts.

Lemma mapM_app_raise {A B : Type} (f : A -> result B) l1 x l2 bs e :
  mapM f l1 = Ok bs -> f x = Raise e -> mapM f (l1 ++ x :: l2) = Raise e.
Proof.
  revert bs. induction l1 as [|a l1 IH]; intros bs H Hx; cbn.
  - now rewrite Hx.
  - cbn in H. destruct (f a); cbn in *; [|discriminate].
    destruct (mapM f l1) as [bs'|] eqn:E; cbn in *; [|discriminate].
    now rewrite (IH bs' eq_refl Hx).
Qed.

(** X6. When the first record's [dailySleepDTO] has no key ["id"],
    [dto_to_df] raises [KeyError] for ["id"], whatever the other records
    hold. *)
Theorem dto_to_df_without_id data dtos dto0 rest :
  Forall2 is_payload data dtos -> dtos = dto0 :: rest ->
  NoDup (dict_keys dto0) -> ~ In "id"%string (dict_keys dto0) ->
  dto_to_df data = Raise (KeyError "id").
Proof.
  intros Hp Hd Hnd Hid. unfold dto_to_df.
  pose proof Hp as Hp'. rewrite Hd in Hp'.
  inversion Hp' as [|d ? data' ? (env & -> & He) _ Edata]; subst data.
  cbn [bind getitem]. rewrite He. cbn [bind keys].
  rewrite (fill_columns_value _ dtos Hp).
  rewrite fold_dict_set_fresh by (auto; intros ? ? []).
  cbn [bind app]. unfold dropna, from_dict. cbn [columns].
  now rewrite dict_get_table_none.
Qed.

(** A first record that has a date and no [id]. *)
Lemma dto_to_df_without_id_witness :
  dto_to_df
    [PDict [("dailySleepDTO", PDict [("calendarDate", PStr "2024-01-01")])];
     PDict [("dailySleepDTO", PDict [("id", PInt 12)])]]%string
  = Raise (KeyError "id").
Proof.
  apply (dto_to_df_without_id _
           [[("calendarDate", PStr "2024-01-01")]; [("id", PInt 12)]]%string
           [("calendarDate", PStr "2024-01-01")]%string
           [[("id", PInt 12)]]%string).
  - repeat constructor; eexists; split; reflexivity.
  - reflexivity.
  - repeat constructor. intros [].
  - cbn. intros [H | []]. discriminate.
Defined.

Lemma labels_head {A : Type} (p : A -> bool) (a : nat) (l : list A) :
  forall c, (a < c)%nat ->
    HdRel lt a (map fst (filter (fun q => p (snd q))
                           (List.combine (seq c (List.length l)) l))).
Proof.
  induction l as [|y l IH]; intros c Hc; cbn; [constructor|].
  destruct (p y); cbn; [now constructor|]. apply IH. lia.
Qed.

(** The labels of the rows that are kept come in ascending order. *)
Lemma labels_sorted {A : Type} (p : A -> bool) (l : list A) :
  forall a,
    Sorted lt (map fst (filter (fun q => p (snd q))
                          (List.combine (seq a (List.length l)) l))).
Proof.
  induction l as [|y l IH]; intros a; cbn; [constructor|].
  destruct (p y); cbn; [|apply IH].
  constructor; [apply IH | apply labels_head; lia].
Qed.

(** X7. The table that [dto_to_df] returns is rectangular and has no
    row without an [id]: every column has one cell per row label, no
    cell of the column ["id"] is null, the labels are positions of the
    input in ascending order, and there are at most as many rows as
    payloads. *)
Theorem dto_to_df_shape data dtos dto0 rest :
  Forall2 is_payload data dtos -> dtos = dto0 :: rest ->
  NoDup (dict_keys dto0) -> In "id"%string (dict_keys dto0) ->
  exists df,
    dto_to_df data = Ok df
    /\ Forall (fun kc => List.length (snd kc) = List.length (index df))
              (columns df)
    /\ (forall col, dict_get "id" (columns df) = Some col ->
                    Forall (fun v => isnull v = false) col)
    /\ Forall (fun i => (i < List.length data)%nat) (index df)
    /\ Sorted lt (index df)
    /\ (List.length (index df) <= List.length data)%nat.
Proof.
  intros Hp Hd Hnd Hid. eexists. split; [eapply dto_to_df_value; eauto|].
  cbn [columns index].
  pose proof (Forall2_length Hp) as Hlen.
  set (F := filter (fun q => has_id (snd q))
              (List.combine (seq 0 (List.length dtos)) dtos)).
  assert (List.length (filter has_id dtos) = List.length F) as HF.
  { subst F. rewrite <- (filter_combine_snd has_id dtos
                           (seq 0 (List.length dtos))) by apply length_seq.
    now rewrite length_map. }
  split; [|split; [|split; [|split]]].
  - apply Forall_forall. intros kc Hkc.
    apply in_map_iff in Hkc as (k & <- & _). cbn [snd].
    now rewrite !length_map.
  - intros col Hcol. rewrite dict_get_table in Hcol by exact Hid.
    inversion Hcol; subst col. apply Forall_forall. intros v Hv.
    apply in_map_iff in Hv as (dto & <- & Hdto).
    apply filter_In in Hdto as (_ & Hk). unfold has_id in Hk.
    now apply negb_true_iff in Hk.
  - apply Forall_forall. intros i Hi.
    apply in_map_iff in Hi as ((i' & x) & Hfst & Hin). cbn in Hfst.
    subst i'. subst F. apply filter_In in Hin as (Hin & _).
    apply in_combine_l in Hin. apply in_seq in Hin. lia.
  - subst F. apply labels_sorted.
  - rewrite length_map. subst F.
    etransitivity; [apply filter_length_le|].
    rewrite length_combine, length_seq. lia.
Qed.

(** Three days, the second one without data. *)
Lemma dto_to_df_shape_witness :
  exists df,
    dto_to_df
      [PDict [("dailySleepDTO",
               PDict [("id", PInt 11); ("calendarDate", PStr "2024-01-01")])];
       PDict [("dailySleepDTO",
               PDict [("id", PNone); ("calendarDate", PStr "2024-01-02")])];
       PDict [("dailySleepDTO",
               PDict [("id", PInt 13); ("calendarDate", PStr "2024-01-03")])]
      ]%string
    = Ok df
    /\ Forall (fun kc => List.length (snd kc) = List.length (index df))
              (columns df)
    /\ Sorted lt (index df).
Proof.
  destruct (dto_to_df_shape
              [PDict [("dailySleepDTO",
                 PDict [("id", PInt 11);
                        ("calendarDate", PStr "2024-01-01")])];
               PDict [("dailySleepDTO",
                 PDict [("id", PNone);
                        ("calendarDate", PStr "2024-01-02")])];
               PDict [("dailySleepDTO",
                 PDict [("id", PInt 13);
                        ("calendarDate", PStr "2024-01-03")])]]%string
              [[("id", PInt 11); ("calendarDate", PStr "2024-01-01")];
               [("id", PNone); ("calendarDate", PStr "2024-01-02")];
               [("id", PInt 13); ("calendarDate", PStr "2024-01-03")]]%string
              [("id", PInt 11); ("calendarDate", PStr "2024-01-01")]%string
              [[("id", PNone); ("calendarDate", PStr "2024-01-02")];
               [("id", PInt 13); ("calendarDate", PStr "2024-01-03")]]%string)
    as (df & Hdf & Hrect & _ & _ & Hsorted & _).
  - repeat constructor; eexists; split; reflexivity.
  - reflexivity.
  - cbn. repeat constructor; cbn; intuition discriminate.
  - cbn. now left.
  - exists df. split; [exact Hdf|]. split; [exact Hrect | exact Hsorted].
Defined.

(** X8. Malformed input: on the empty list [dto_to_df] raises
    [IndexError]; and a payload without the key ["dailySleepDTO"] makes
    it raise [KeyError] for that key, when the payloads before it are
    well formed and the first record, if it is another one, has at least
    one key. *)
Theorem dto_to_df_malformed :
  dto_to_df [] = Raise IndexError
  /\ forall pre dtos env post,
       Forall2 is_payload pre dtos ->
       (forall dto0 rest, dtos = dto0 :: rest -> dict_keys dto0 <> []) ->
       dict_get "dailySleepDTO" env = None ->
       dto_to_df (pre ++ PDict env :: post)
       = Raise (KeyError "dailySleepDTO").
Proof.
  split; [reflexivity|].
  intros pre dtos env post Hp Hkeys Henv. unfold dto_to_df.
  destruct Hp as [|d dto0 pre dtos (env0 & -> & He) Hp].
  - cbn. now rewrite Henv.
  - cbn [app bind getitem]. rewrite He. cbn [bind keys].
    destruct (dict_keys dto0) as [|k0 ks] eqn:Ek;
      [exfalso; eapply Hkeys; eauto|].
    cbn [fill_columns]. unfold dto_column.
    rewrite (mapM_app_raise _ (PDict env0 :: pre) (PDict env) post
               (map (fun dto => dto_get dto k0) (dto0 :: dtos))
               (KeyError "dailySleepDTO")).
    + reflexivity.
    + apply (dto_column_value (PDict env0 :: pre) (dto0 :: dtos) k0).
      constructor; [exists env0; auto | exact Hp].
    + cbn. now rewrite Henv.
Qed.

(** A second payload that is only an envelope. *)
Lemma dto_to_df_malformed_witness :
  dto_to_df
    ([PDict [("dailySleepDTO"%string, PDict [("id"%string, PInt 11)])]]
       ++ PDict [("restlessMomentsCount"%string, PInt 3)] :: [])%list
  = Raise (KeyError "dailySleepDTO").
Proof.
  apply (proj2 dto_to_df_malformed
           [PDict [("dailySleepDTO", PDict [("id", PInt 11)])]]%string
           [[("id", PInt 11)]]%string).
  - repeat constructor. eexists; split; reflexivity.
  - intros dto0 rest H. inversion H. discriminate.
  - reflexivity.
Defined.

End FlattenerExtras.

(** ** More on the relative-time normaliser *)

Module NormaliserExtras.
Import SleepPlot NormaliserFacts.


(** [make_relative] in terms of instants. *)
Lemma make_relative_instant dt d :
  valid_datetime dt -> valid_date d ->
  exists s,
    make_relative dt d = Ok s
    /\ (s == (toordinal d * 86400000000 - dt_us dt) # 1000000)%Q.
Proof.
  intros Hdt Hd. eexists. split; [apply make_relative_value; auto|].
  unfold total_seconds, td_us, dt_us. cbn [days seconds microseconds].
  rewrite Qred_correct. unfold Qeq, Qopp. cbn. lia.
Qed.

(** X9. Moving the reference date one day on adds 86400 seconds:
    [make_relative(dt, d + 1 day) = make_relative(dt, d) + 86400]. *)
Theorem make_relative_next_date dt d :
  valid_datetime dt -> valid_date d -> toordinal d < MAXORDINAL ->
  exists a b,
    make_relative dt d = Ok a
    /\ make_relative dt (mkdate (toordinal d + 1)) = Ok b
    /\ (b == a + 86400)%Q.
Proof.
  intros Hdt Hd Hmax.
  destruct (make_relative_instant dt d Hdt Hd) as (a & Ha & Ea).
  destruct (make_relative_instant dt (mkdate (toordinal d + 1)) Hdt)
    as (b & Hb & Eb).
  { unfold valid_date in *. cbn. lia. }
  exists a, b. repeat split; auto.
  rewrite Ea, Eb. cbn [toordinal]. unfold Qeq, Qplus. cbn. lia.
Qed.

(** Waking at 07:15 on 2024-01-02, seen from that day and the next. *)
Lemma make_relative_next_date_witness :
  exists a b,
    make_relative (at_ymd_hms 2024 1 2 7 15 0) (ymd 2024 1 2) = Ok a
    /\ make_relative (at_ymd_hms 2024 1 2 7 15 0)
         (mkdate (toordinal (ymd 2024 1 2) + 1)) = Ok b
    /\ (b == a + 86400)%Q.
Proof.
  apply make_relative_next_date.
  - unfold valid_datetime, valid_date, MAXORDINAL; cbn; lia.
  - unfold valid_date, MAXORDINAL; cbn; lia.
  - unfold MAXORDINAL; cbn; lia.
Defined.



(** The datetime that [seconds_to_time] returns: it is valid, and its
    instant is the midnight of [d] minus [s] rounded to microseconds. *)
Lemma seconds_to_time_instant s d dt :
  seconds_to_time s d = Ok dt ->
  valid_datetime dt
  /\ dt_us dt = toordinal d * 86400000000
                - round_half_even (s * inject_Z 1000000).
Proof.
  unfold seconds_to_time, timedelta_of_seconds, dt_sub_td, td_neg.
  set (r := round_half_even _).
  destruct (new_timedelta 0 0 r) as [td|] eqn:Etd; [ | discriminate].
  pose proof (new_timedelta_us _ _ _ _ Etd) as Utd. cbn [bind].
  destruct (new_timedelta (- days td) _ _) as [n|] eqn:En;
    [ | discriminate].
  pose proof (new_timedelta_us _ _ _ _ En) as Un.
  apply new_timedelta_fields in En as (_ & Hns & Hnu). cbn [bind].
  unfold dt_add. cbn [combine min_time dt_date hour minute second
    microsecond t_hour t_minute t_second t_microsecond].
  destruct (new_timedelta (toordinal d) _ _) as [self|] eqn:Es;
    [ | discriminate].
  pose proof (new_timedelta_us _ _ _ _ Es) as Us. cbn [bind].
  unfold td_add.
  destruct (new_timedelta (days self + _) _ _) as [delta|] eqn:Ed;
    [ | discriminate].
  pose proof (new_timedelta_us _ _ _ _ Ed) as Ud.
  apply new_timedelta_fields in Ed as (_ & Hds & Hdu). cbn [bind].
  destruct (Z.ltb_spec 0 (days delta)) as [Hlo|]; cbn [andb];
    [|discriminate].
  destruct (Z.leb_spec (days delta) MAXORDINAL) as [Hhi|]; [|discriminate].
  intros H; inversion H; subst dt; clear H.
  assert (0 <= seconds delta < 86400) as Bs
    by (rewrite Hds; apply Z.mod_pos_bound; lia).
  assert (0 <= microseconds delta < 1000000) as Bu
    by (rewrite Hdu; apply Z.mod_pos_bound; lia).
  split.
  - unfold valid_datetime, valid_date. cbn.
    repeat split; try lia; Z.div_mod_to_equations; lia.
  - unfold dt_us. cbn. unfold td_us in *.
    assert (seconds delta / 3600 * 3600 + seconds delta mod 3600 / 60 * 60
            + (seconds delta mod 3600) mod 60 = seconds delta) as E
      by (Z.div_mod_to_equations; lia).
    lia.
Qed.

(** X11. Whatever the seconds and the date, a datetime that
    [seconds_to_time] returns is a valid one: its date is within the
    calendar and its hour, minute, second and microsecond are in
    range. *)
Theorem seconds_to_time_valid s d dt :
  seconds_to_time s d = Ok dt -> valid_datetime dt.
Proof. intros H. now apply seconds_to_time_instant in H. Qed.

(** Half past eleven in the evening before 2024-01-02. *)
Lemma seconds_to_time_valid_witness :
  valid_datetime (at_ymd_hms 2024 1 1 23 30 0).
Proof.
  apply (seconds_to_time_valid 1800%Q (ymd 2024 1 2)). reflexivity.
Defined.



(** X13. [format_timedelta] of a duration of [n] seconds shows the
    hours modulo 24 and the minutes, each on two digits: whole days and
    the seconds below a minute are dropped (25 hours read ["01:00"]). *)
Theorem format_timedelta_seconds n td :
  timedelta_of_s (Some n) = Ok (Some td) ->
  format_timedelta (Some td)
  = (two_digits ((n / 3600) mod 24) ++ ":"
       ++ two_digits ((n / 60) mod 60))%string.
Proof.
  unfold timedelta_of_s.
  destruct (new_timedelta 0 n 0) as [t|] eqn:E; [|discriminate].
  cbn [bind]. intros H; inversion H; subst t; clear H.
  apply new_timedelta_fields in E as (_ & Hs & _).
  unfold format_timedelta, components_hours, components_minutes.
  rewrite Hs.
  replace ((n + 0 / 1000000) mod 86400 / 3600) with ((n / 3600) mod 24)
    by (cbn; Z.div_mod_to_equations; lia).
  replace (((n + 0 / 1000000) mod 86400) mod 3600 / 60)
    with ((n / 60) mod 60) by (cbn; Z.div_mod_to_equations; lia).
  reflexivity.
Qed.

(** Twenty-five hours and a half minute. *)
Lemma format_timedelta_seconds_witness :
  format_timedelta (Some (mktimedelta 1 3630 0)) = "01:00"%string.
Proof.
  rewrite (format_timedelta_seconds 90030 (mktimedelta 1 3630 0)).
  - reflexivity.
  - reflexivity.
Defined.

End NormaliserExtras.

(** ** More on the normalised table *)

Module CleanDataExtras.
Import SleepPlot NormaliserFacts NormaliserExtras CleanDataFacts.

(** A valid datetime is determined by its instant. *)
Lemma dt_us_inj a b :
  valid_datetime a -> valid_datetime b -> dt_us a = dt_us b -> a = b.
Proof.
  intros (_ & Hh & Hm & Hs & Hus) (_ & Hh' & Hm' & Hs' & Hus').
  destruct a as [[oa] ha ma sa ua], b as [[ob] hb mb sb ub].
  unfold dt_us. cbn in *. intros E.
  assert (oa = ob /\ ha = hb /\ ma = mb /\ sa = sb /\ ua = ub)
    as (-> & -> & -> & -> & ->) by lia.
  reflexivity.
Qed.

Lemma Ok_Some_inj {A} (a b : A) : Ok (Some a) = Ok (Some b) -> a = b.
Proof. congruence. Qed.

(** What [pd.to_datetime(ms, unit='ms')] returns is a valid datetime,
    [ms] milliseconds after the first instant of 1970. *)
Lemma datetime_of_ms_instant n dt :
  datetime_of_ms (Some n) = Ok (Some dt) ->
  valid_datetime dt
  /\ dt_us dt = (EPOCH_ORDINAL * 86400000 + n) * 1000.
Proof.
  unfold datetime_of_ms. cbv zeta.
  pose proof (Z.div_mod n 86400000 ltac:(lia)) as En.
  pose proof (Z.mod_pos_bound n 86400000 ltac:(lia)) as Hr.
  set (q := n / 86400000) in *. set (r := n mod 86400000) in *.
  clearbody q r.
  destruct (Z.leb_spec 1 (EPOCH_ORDINAL + q)) as [Hlo|];
    cbn [andb]; [|discriminate].
  destruct (Z.leb_spec (EPOCH_ORDINAL + q) MAXORDINAL) as [Hhi|];
    [|discriminate].
  intros H. apply Ok_Some_inj in H. subst dt.
  unfold valid_datetime, valid_date, dt_us.
  cbn [dt_date toordinal hour minute second microsecond].
  unfold EPOCH_ORDINAL in *.
  repeat split; try lia; Z.div_mod_to_equations; lia.
Qed.

Lemma datetime_of_ms_valid ms o dt :
  datetime_of_ms ms = Ok o -> o = Some dt -> valid_datetime dt.
Proof.
  intros H ->. destruct ms as [n|].
  - exact (proj1 (datetime_of_ms_instant n dt H)).
  - unfold datetime_of_ms in H. congruence.
Qed.

Lemma relative_cell_ok o d :
  valid_date d -> (forall b, o = Some b -> valid_datetime b) ->
  exists r,
    make_relative_cell o d = Ok r
    /\ format_relative_seconds r d = Ok (clock_of o)
    /\ seconds_before_midnight o d r.
Proof.
  intros Hd Hv. destruct o as [b|]; cbn [make_relative_cell].
  - specialize (Hv b eq_refl).
    rewrite make_relative_value by auto. cbn [bind].
    eexists. split; [reflexivity|]. split.
    + unfold format_relative_seconds.
      assert (round_half_even
                (- total_seconds
                     (mktimedelta (toordinal (dt_date b) - toordinal d)
                        (second b + minute b * 60 + hour b * 3600)
                        (microsecond b)) * inject_Z 1000000)
              = toordinal d * 86400000000 - dt_us b) as R.
      { rewrite total_seconds_us. unfold td_us, dt_us. cbn. lia. }
      destruct (seconds_to_time_in_range
                  (- total_seconds
                       (mktimedelta (toordinal (dt_date b) - toordinal d)
                          (second b + minute b * 60 + hour b * 3600)
                          (microsecond b))) d Hd) as (dt' & E).
      { rewrite R. destruct Hv as (Ho & Hh & Hm & Hs & Hus).
        unfold valid_date, MAXORDINAL, dt_us in *.
        Z.div_mod_to_equations. lia. }
      rewrite E. cbn [bind]. cbn [clock_of]. do 2 f_equal.
      apply seconds_to_time_instant in E as (Hv' & Hus').
      apply dt_us_inj; auto. rewrite Hus', R. lia.
    + cbn [seconds_before_midnight]. unfold total_seconds.
      rewrite Qred_correct. unfold td_us, dt_us, Qeq, Qopp.
      cbn [days seconds microseconds Qnum Qden]. lia.
  - exists None. repeat split; reflexivity.
Qed.

(** The relative and formatted columns of a row within the calendar. *)
Lemma relative_row_ok r :
  valid_dated_row r ->
  exists x,
    relative_row r = Ok x
    /\ r_dated x = r
    /\ f_bedtime x = clock_of (bedtime r)
    /\ f_wakeup x = clock_of (wakeup r)
    /\ seconds_before_midnight (bedtime r) (date_ r) (r_bedtime x)
    /\ seconds_before_midnight (wakeup r) (date_ r) (r_wakeup x).
Proof.
  intros (Hd & Hb & Hw). unfold relative_row.
  destruct (relative_cell_ok (bedtime r) (date_ r) Hd Hb)
    as (rb & -> & Fb & Sb).
  destruct (relative_cell_ok (wakeup r) (date_ r) Hd Hw)
    as (rw & -> & Fw & Sw).
  cbn [bind]. rewrite Fb, Fw. cbn [bind].
  eexists. split; [reflexivity|]. cbn. auto.
Qed.

Lemma convert_row_valid to_datetime r x :
  (forall d, to_datetime (calendarDate r) = Ok d -> valid_date d) ->
  convert_row to_datetime r = Ok x -> valid_dated_row x.
Proof.
  intros Hp. unfold convert_row.
  destruct (to_datetime _) as [d|] eqn:Ed; cbn [bind]; [|discriminate].
  destruct (datetime_of_ms (sleepStartTimestampLocal r)) as [b|] eqn:Eb;
    cbn [bind]; [|discriminate].
  destruct (datetime_of_ms (sleepEndTimestampLocal r)) as [w|] eqn:Ew;
    cbn [bind]; [|discriminate].
  destruct (timedelta_of_s _); cbn [bind]; [|discriminate].
  intros H; inversion H; subst x; clear H.
  unfold valid_dated_row. cbn [date_ bedtime wakeup].
  split; [|split].
  - apply (Hp d eq_refl).
  - intros b' ->. exact (datetime_of_ms_valid _ _ b' Eb eq_refl).
  - intros w' ->. exact (datetime_of_ms_valid _ _ w' Ew eq_refl).
Qed.

(** The rows after the conversions and the sort are within the
    calendar, when the parsed dates are. *)
Lemma sorted_rows_valid to_datetime df converted :
  (forall r d, In r (dropna_id df) ->
               to_datetime (calendarDate r) = Ok d -> valid_date d) ->
  mapM (convert_row to_datetime) (dropna_id df) = Ok converted ->
  forall x, In x (sort_values_date converted) -> valid_dated_row x.
Proof.
  intros Hp Hc x Hx. apply (proj1 (sort_values_date_In _ _)) in Hx.
  apply mapM_Forall2 in Hc.
  revert Hp. induction Hc as [|r y l l' Hry _ IH]; intros Hp;
    [destruct Hx|].
  destruct Hx as [-> | Hx].
  - eapply convert_row_valid; [|exact Hry].
    intros d. apply Hp. now left.
  - apply IH; auto. intros r' d Hr'. apply Hp. now right.
Qed.






Lemma eight_days_dates r d :
  In r (dropna_id eight_days) ->
  strptime_Ymd (calendarDate r) = Ok d -> valid_date d.
Proof.
  cbn. intros H.
  repeat (destruct H as [<- | H];
          [ intros E; vm_compute in E; inversion E;
            unfold valid_date, MAXORDINAL; cbn; lia | ]).
  destruct H.
Qed.


(** The relative and the formatted cells of the table of
    [clean_data]. *)
Lemma clean_data_cells to_datetime df t :
  (forall r d, In r (dropna_id df) ->
               to_datetime (calendarDate r) = Ok d -> valid_date d) ->
  clean_data to_datetime df = Ok t ->
  Forall (fun x =>
            f_bedtime (r_rel x) = clock_of (bedtime (r_dated (r_rel x)))
            /\ f_wakeup (r_rel x) = clock_of (wakeup (r_dated (r_rel x)))
            /\ seconds_before_midnight (bedtime (r_dated (r_rel x)))
                 (row_date x) (r_bedtime (r_rel x))
            /\ seconds_before_midnight (wakeup (r_dated (r_rel x)))
                 (row_date x) (r_wakeup (r_rel x)))
         t.
Proof.
  intros Hp H.
  destruct (clean_data_stages _ _ _ H) as (converted & rel & Hc & _ & Hr & ->).
  apply Forall_map with (f := r_rel)
    (P := fun y =>
            f_bedtime y = clock_of (bedtime (r_dated y))
            /\ f_wakeup y = clock_of (wakeup (r_dated y))
            /\ seconds_before_midnight (bedtime (r_dated y))
                 (date_ (r_dated y)) (r_bedtime y)
            /\ seconds_before_midnight (wakeup (r_dated y))
                 (date_ (r_dated y)) (r_wakeup y)).
  rewrite (proj1 (add_rolling_columns rel)).
  pose proof (sorted_rows_valid to_datetime df converted Hp Hc) as Hv.
  clear H Hc Hp. apply mapM_Forall2 in Hr. revert Hv.
  induction Hr as [|r x l l' Hrx _ IH]; intros Hv; constructor.
  - destruct (relative_row_ok r (Hv r (or_introl eq_refl)))
      as (y & Hy & Hd & Hfb & Hfw & Hrb & Hrw).
    rewrite Hrx in Hy. inversion Hy; subst y. rewrite Hd. auto.
  - apply IH. intros y Hy. apply Hv. now right.
Qed.

(** X16. In the table of [clean_data], the formatted columns show the
    clock of the datetimes themselves, whatever the date of the row:
    [f_bedtime] is the 12-hour clock time of [bedtime] and [f_wakeup]
    that of [wakeup], the empty string for a null one. *)
Theorem clean_data_formatted to_datetime df t :
  (forall r d, In r (dropna_id df) ->
               to_datetime (calendarDate r) = Ok d -> valid_date d) ->
  clean_data to_datetime df = Ok t ->
  Forall (fun x =>
            f_bedtime (r_rel x) = clock_of (bedtime (r_dated (r_rel x)))
            /\ f_wakeup (r_rel x) = clock_of (wakeup (r_dated (r_rel x))))
         t.
Proof.
  intros Hp H. eapply Forall_impl; [|exact (clean_data_cells _ _ _ Hp H)].
  cbv beta. tauto.
Qed.

(** The first night of the eight days: to bed at 23:01. *)
Lemma clean_data_formatted_witness :
  exists t,
    clean_data strptime_Ymd eight_days = Ok t
    /\ Forall (fun x =>
                 f_bedtime (r_rel x)
                 = clock_of (bedtime (r_dated (r_rel x))))
              t
    /\ map (fun x => f_bedtime (r_rel x)) (firstn 1 t)
       = ["11:01 PM"%string].
Proof.
  destruct (clean_data strptime_Ymd eight_days) as [t|e] eqn:E;
    [|vm_compute in E; discriminate].
  pose proof (clean_data_formatted strptime_Ymd eight_days t
                eight_days_dates E) as F.
  exists t. split; [reflexivity|]. split.
  - eapply Forall_impl; [|exact F]. cbv beta. tauto.
  - vm_compute in E. inversion E. reflexivity.
Defined.

Lemma series_sub_cons a b la lb :
  series_sub (a :: la) (b :: lb)
  = match a, b with
    | Some x, Some y => Some (x - y)%Q
    | _, _ => None
    end :: series_sub la lb.
Proof. reflexivity. Qed.

(** X17. The bars that [create_traces] draws from the table of
    [clean_data] span the night: each night has one bar, whose height
    is the number of seconds from the bedtime to the wakeup of that
    night, whatever the date of its row, and which is null when one of
    the two is. *)
Theorem create_traces_bar to_datetime df t tr :
  (forall r d, In r (dropna_id df) ->
               to_datetime (calendarDate r) = Ok d -> valid_date d) ->
  clean_data to_datetime df = Ok t ->
  create_traces t = Ok tr ->
  bar_x (sleeping_hours tr) = map row_date t
  /\ Forall2 (fun x y =>
                seconds_between (bedtime (r_dated (r_rel x)))
                                (wakeup (r_dated (r_rel x))) y)
             t (bar_y (sleeping_hours tr)).
Proof.
  intros Hp H Htr. pose proof (clean_data_cells _ _ _ Hp H) as F.
  unfold create_traces in Htr. cbv zeta in Htr.
  destruct (mapM _ t) as [wk|]; cbn [bind] in Htr; [|discriminate].
  destruct (mapM _ t) as [bd|]; cbn [bind] in Htr; [|discriminate].
  apply (f_equal (fun r => match r with
                           | Ok x => sleeping_hours x
                           | Raise _ => sleeping_hours_bar t
                           end)) in Htr.
  cbn [sleeping_hours] in Htr. rewrite <- Htr. clear Htr wk bd H Hp.
  unfold sleeping_hours_bar. cbn [bar_x bar_y]. split; [reflexivity|].
  induction F as [|x l (_ & _ & Hb & Hw) _ IH]; [constructor|].
  cbn [map]. rewrite series_sub_cons. constructor; [|exact IH].
  unfold seconds_before_midnight, seconds_between in *.
  destruct (bedtime (r_dated (r_rel x))) as [b|],
           (wakeup (r_dated (r_rel x))) as [w|],
           (r_bedtime (r_rel x)) as [sb|],
           (r_wakeup (r_rel x)) as [sw|]; try tauto.
  rewrite Hb, Hw. unfold Qeq, Qminus, Qplus, Qopp.
  cbn [Qnum Qden]. lia.
Qed.

(** The bars of the eight days. *)
Lemma create_traces_bar_witness :
  exists t tr,
    clean_data strptime_Ymd eight_days = Ok t
    /\ create_traces t = Ok tr
    /\ List.length (bar_y (sleeping_hours tr)) = List.length t.
Proof.
  destruct (clean_data strptime_Ymd eight_days) as [t|e] eqn:E;
    [|vm_compute in E; discriminate].
  destruct (create_traces t) as [tr|e] eqn:Etr.
  - exists t, tr. split; [reflexivity|]. split; [exact Etr|].
    symmetry.
    exact (Forall2_length
             (proj2 (create_traces_bar strptime_Ymd eight_days t tr
                       eight_days_dates E Etr))).
  - vm_compute in E. inversion E; subst t. vm_compute in Etr. discriminate.
Defined.

End CleanDataExtras.

(** ** More on the layout *)

Module LayoutExtras.
Import SleepPlot NormaliserFacts LayoutFacts.

(** The label of a tick is that of its clock time, whatever [today]. *)
Lemma tick_label_clock today t :
  valid_datetime today -> 2 <= toordinal (dt_date today) ->
  -86400 < t <= 86400 ->
  tick_label today t
  = Ok (let c := clock_seconds (t * 1000000) in
        strftime_IMp
          (mkdatetime (mkdate 1) (c / 3600) ((c mod 3600) / 60) 0 0)
        ++ "  ")%string.
Proof.
  intros (Hd & _) Ho Ht. unfold tick_label, format_relative_seconds.
  destruct (seconds_to_time_in_range (inject_Z t) (dt_date today) Hd)
    as (dt & E).
  - rewrite round_half_even_seconds.
    unfold valid_date, MAXORDINAL in *. Z.div_mod_to_equations. lia.
  - rewrite E. cbn [bind].
    apply seconds_to_time_clock in E. cbv zeta in E.
    rewrite round_half_even_seconds in E. destruct E as (Eh & Em).
    cbv zeta. unfold datetime_to_12hr, strftime_IMp.
    cbn [hour minute]. now rewrite Eh, Em.
Qed.

(** X18. The labels of the first axis do not depend on the day the
    chart is drawn: from the top tick down they read the 24 hours of
    the clock from 12:00 AM to 11:00 PM, twice, each followed by two
    spaces. *)
Theorem update_layout_labels today :
  valid_datetime today -> 2 <= toordinal (dt_date today) ->
  exists L,
    update_layout today = Ok L
    /\ let hours :=
         ["12:00 AM  "; "01:00 AM  "; "02:00 AM  "; "03:00 AM  ";
          "04:00 AM  "; "05:00 AM  "; "06:00 AM  "; "07:00 AM  ";
          "08:00 AM  "; "09:00 AM  "; "10:00 AM  "; "11:00 AM  ";
          "12:00 PM  "; "01:00 PM  "; "02:00 PM  "; "03:00 PM  ";
          "04:00 PM  "; "05:00 PM  "; "06:00 PM  "; "07:00 PM  ";
          "08:00 PM  "; "09:00 PM  "; "10:00 PM  "; "11:00 PM  "]%string
       in ticktext (yaxis L) = (hours ++ hours)%list.
Proof.
  intros Hv Ho. unfold update_layout.
  change (mapM timedelta_hours (py_range 0 16 1))
    with (Ok (map (fun n => mktimedelta 0 (3600 * Z.of_nat n) 0)
                (seq 0 16))).
  cbn [bind]. cbv zeta.
  rewrite (mapM_ok_map (tick_label today)
             (fun t =>
                let c := clock_seconds (t * 1000000) in
                strftime_IMp
                  (mkdatetime (mkdate 1) (c / 3600) ((c mod 3600) / 60) 0 0)
                ++ "  ")%string).
  - cbn [bind]. eexists. split; [reflexivity|].
    cbn [yaxis ticktext]. vm_compute. reflexivity.
  - intros t Ht. apply tick_label_clock; auto.
    rewrite time_range_values in Ht.
    apply in_map_iff in Ht as (k & <- & Hk). apply in_seq in Hk. lia.
Qed.

(** The labels of a chart drawn on 2024-01-02. *)
Lemma update_layout_labels_witness :
  exists L,
    update_layout (at_ymd_hms 2024 1 2 10 30 0) = Ok L
    /\ nth_error (ticktext (yaxis L)) 1 = Some "01:00 AM  "%string.
Proof.
  destruct (update_layout_labels (at_ymd_hms 2024 1 2 10 30 0))
    as (L & HL & Ht).
  - unfold valid_datetime, valid_date, MAXORDINAL; cbn; lia.
  - cbn; lia.
  - exists L. split; [assumption|]. cbv zeta in Ht. rewrite Ht. reflexivity.
Defined.

End LayoutExtras.
